(** * Blog generator: content post-processing and mock SEO metrics

  A shallow embedding of [ai_generator.py] and [seo_fetcher.py].

  Text.  A Python [str] is modelled as a list of characters, a character
  being a code point of the Latin-1 range (0..255, Rocq's [ascii]).  The
  tables for [str.isspace] and [str.lower] are Python's, restricted to
  that range.

  Numbers.  Python [int] is [Z].  A Python [float] is idealised as an
  exact rational ([Q]); the random source is an explicit tape of draws
  from the unit interval, threaded through a small state monad. *)

From Stdlib Require Import List Ascii String ZArith QArith Qround Lia Bool Arith.
From Stdlib Require Import DecimalString.
Import ListNotations.

Set Implicit Arguments.

(** ** Python string primitives *)

Module PyStr.

Definition str := list ascii.

(** A literal of the source. *)
Definition lit (s : string) : str := list_ascii_of_string s.

Definition NL : ascii := "010"%char.
Definition SP : ascii := " "%char.
(** The double quote character. *)
Definition DQ : ascii := "034"%char.

Definition code (c : ascii) : nat := nat_of_ascii c.

Definition between (lo hi n : nat) : bool := (lo <=? n) && (n <=? hi).

(** [str.isspace] on one character: TAB..CR, FS..US, space, NEL, NBSP. *)
Definition is_space (c : ascii) : bool :=
  let n := code c in
  between 9 13 n || between 28 32 n || (n =? 133) || (n =? 160).

(** Upper-case letters of Latin-1: A..Z, A-grave..O-diaeresis,
    O-stroke..Thorn. *)
Definition is_upper (c : ascii) : bool :=
  let n := code c in
  between 65 90 n || between 192 214 n || between 216 222 n.

(** Lower-case letters of Latin-1 whose upper-case form is again in
    Latin-1: a..z, a-grave..o-diaeresis, o-stroke..thorn. *)
Definition is_lower_closed (c : ascii) : bool :=
  let n := code c in
  between 97 122 n || between 224 246 n || between 248 254 n.

(** [_PyUnicode_IsCased]: the letters above, and the feminine and
    masculine ordinal indicators, micro sign, sharp s and y-diaeresis. *)
Definition is_cased (c : ascii) : bool :=
  let n := code c in
  is_upper c || is_lower_closed c
  || (n =? 170) || (n =? 181) || (n =? 186) || (n =? 223) || (n =? 255).

Definition lower_char (c : ascii) : ascii :=
  if is_upper c then ascii_of_nat (code c + 32) else c.

(** Title-case form of one character.  Micro sign, sharp s and
    y-diaeresis have title-case forms outside Latin-1; they are kept as
    they are here, and no statement below depends on them. *)
Definition title_char (c : ascii) : ascii :=
  if is_lower_closed c then ascii_of_nat (code c - 32) else c.

(** [s.lower()] *)
Definition lower (s : str) : str := map lower_char s.

(** [s.title()]: [do_title] of CPython, a character is lower-cased
    after a cased character and title-cased otherwise. *)
Fixpoint title_go (previous_is_cased : bool) (s : str) : str :=
  match s with
  | [] => []
  | c :: t =>
      (if previous_is_cased then lower_char c else title_char c)
        :: title_go (is_cased c) t
  end.

Definition title (s : str) : str := title_go false s.

(** [s.lstrip()], [s.rstrip()], [s.strip()] *)
Fixpoint lstrip (s : str) : str :=
  match s with
  | [] => []
  | c :: t => if is_space c then lstrip t else s
  end.

Fixpoint rstrip (s : str) : str :=
  match s with
  | [] => []
  | c :: t =>
      match rstrip t with
      | [] => if is_space c then [] else [c]
      | r => c :: r
      end
  end.

Definition strip (s : str) : str := rstrip (lstrip s).

(** [s.startswith(p)] *)
Fixpoint startswith (p s : str) : bool :=
  match p, s with
  | [], _ => true
  | _ :: _, [] => false
  | a :: p', b :: s' => Ascii.eqb a b && startswith p' s'
  end.

(** [p in s] *)
Fixpoint contains (p s : str) : bool :=
  startswith p s ||
  match s with
  | [] => false
  | _ :: t => contains p t
  end.

(** [s.split(sep)] for a one-character separator: never empty. *)
Fixpoint split_on (sep : ascii) (s : str) : list str :=
  match s with
  | [] => [[]]
  | c :: t =>
      if Ascii.eqb c sep then [] :: split_on sep t
      else match split_on sep t with
           | [] => [[c]]
           | w :: ws => (c :: w) :: ws
           end
  end.

(** [s.split()]: the maximal runs of non-space characters.  [cur] is
    the token being read, reversed. *)
Fixpoint split_go (cur : str) (s : str) : list str :=
  match s with
  | [] => match cur with [] => [] | _ => [rev cur] end
  | c :: t =>
      if is_space c
      then match cur with
           | [] => split_go [] t
           | _ => rev cur :: split_go [] t
           end
      else split_go (c :: cur) t
  end.

Definition split (s : str) : list str := split_go [] s.

(** [sep.join(l)] *)
Fixpoint join (sep : str) (l : list str) : str :=
  match l with
  | [] => []
  | [x] => x
  | x :: rest => x ++ sep ++ join sep rest
  end.

(** The text before the last [sep], when there is one. *)
Fixpoint before_last (sep : ascii) (s : str) : option str :=
  match s with
  | [] => None
  | c :: t =>
      match before_last sep t with
      | Some r => Some (c :: r)
      | None => if Ascii.eqb c sep then Some [] else None
      end
  end.

(** [s.rsplit(sep, 1)[0]]: the whole of [s] when it holds no [sep]. *)
Definition rsplit1_head (sep : ascii) (s : str) : str :=
  match before_last sep s with
  | Some r => r
  | None => s
  end.

(** [s.replace(old, new)] for a non-empty [old] (the only use in the
    source): leftmost occurrences, not overlapping.  [skip] counts the
    characters of a matched occurrence still to be dropped. *)
Fixpoint replace_go (old new : str) (skip : nat) (s : str) : str :=
  match s with
  | [] => []
  | c :: t =>
      match skip with
      | S k => replace_go old new k t
      | O =>
          if startswith old s
          then new ++ replace_go old new (List.length old - 1) t
          else c :: replace_go old new 0 t
      end
  end.

Definition replace (old new s : str) : str := replace_go old new 0 s.

(** [s[:n]] *)
Definition slice_to (n : nat) (s : str) : str := firstn n s.

(** [str(n)] for a non-negative integer. *)
Definition str_of_nat (n : nat) : str :=
  lit (NilEmpty.string_of_uint (Nat.to_uint n)).

(** [str(z)] for an integer. *)
Definition str_of_Z (z : Z) : str :=
  lit (NilEmpty.string_of_int (Z.to_int z)).

End PyStr.

(** ** Python numbers *)

Module PyNum.

(** [round(x)]: to the nearest integer, a tie to the even one. *)
Definition round (x : Q) : Z :=
  let f := Qfloor x in
  match Qcompare (x - inject_Z f) (1 # 2) with
  | Lt => f
  | Gt => (f + 1)%Z
  | Eq => if Z.even f then f else (f + 1)%Z
  end.

(** [round(x, 2)] *)
Definition round2 (x : Q) : Q := inject_Z (round (x * 100)) / 100.

(** [int(x)]: towards zero. *)
Definition int (x : Q) : Z :=
  if Qle_bool 0 x then Qfloor x else Qceiling x.

End PyNum.

(** ** The regular expressions of the source

  Each pattern of the source is a matcher: applied to the text at a
  position it gives what is left after the match there, or [None].  None
  of the patterns matches the empty text, and none looks behind.  The
  greedy classes are followed by a character outside the class, so they
  never give a character back; a lazy [.*?] is a search for the first
  place where what follows it matches. *)

Module Re.
Import PyStr.

Definition matcher := str -> option str.

Definition bind_opt {A B} (x : option A) (f : A -> option B) : option B :=
  match x with
  | Some a => f a
  | None => None
  end.

Notation "x >>= f" := (bind_opt x f) (at level 50, left associativity).

(** A literal, case-sensitive. *)
Definition exact (p : str) : matcher :=
  fun s => if startswith p s then Some (skipn (List.length p) s) else None.

(** [s] starts with [p], letter case apart. *)
Fixpoint startswith_ci (p s : str) : bool :=
  match p, s with
  | [], _ => true
  | _ :: _, [] => false
  | a :: p', b :: s' =>
      Ascii.eqb (lower_char a) (lower_char b) && startswith_ci p' s'
  end.

(** A literal under [re.IGNORECASE]. *)
Definition exact_ci (p : str) : matcher :=
  fun s => if startswith_ci p s then Some (skipn (List.length p) s) else None.

(** One character of a class. *)
Definition one (cls : ascii -> bool) : matcher :=
  fun s =>
    match s with
    | c :: t => if cls c then Some t else None
    | [] => None
    end.

(** A greedy class, zero or more times. *)
Fixpoint many (cls : ascii -> bool) (s : str) : str :=
  match s with
  | c :: t => if cls c then many cls t else s
  | [] => []
  end.

Definition star (cls : ascii -> bool) : matcher := fun s => Some (many cls s).

(** End of text, as [$] after a greedy run of white space sees it. *)
Definition at_end : matcher :=
  fun s => match s with [] => Some [] | _ :: _ => None end.

Definition not_gt (c : ascii) : bool := negb (Ascii.eqb c ">"%char).

Definition digit_1_6 (c : ascii) : bool := between 49 54 (code c).

(** The first place of [s] where [m] matches: the text before that
    place (what a lazy [(.*?)] captures under [re.DOTALL]) and the text
    left after the match. *)
Fixpoint first_match (m : matcher) (s : str) : option (str * str) :=
  match m s with
  | Some rest => Some ([], rest)
  | None =>
      match s with
      | [] => None
      | c :: t =>
          match first_match m t with
          | Some (g, rest) => Some (c :: g, rest)
          | None => None
          end
      end
  end.

(** [re.sub(pattern, repl, s)]: every match, from the left, not
    overlapping, is replaced by [repl].  [skip] counts the characters of
    the current match still to be dropped. *)
Fixpoint sub_go (m : matcher) (repl : str) (skip : nat) (s : str) : str :=
  match s with
  | [] => []
  | c :: t =>
      match skip with
      | S k => sub_go m repl k t
      | O =>
          match m s with
          | Some rest =>
              repl ++ sub_go m repl (List.length s - List.length rest - 1) t
          | None => c :: sub_go m repl 0 t
          end
      end
  end.

Definition sub (m : matcher) (repl s : str) : str := sub_go m repl 0 s.

(** [re.search(pattern, s)] for a pattern with one group: the group of
    the leftmost match. *)
Fixpoint search (m : str -> option str) (s : str) : option str :=
  match m s with
  | Some g => Some g
  | None =>
      match s with
      | [] => None
      | _ :: t => search m t
      end
  end.

(** [<[^>]+>] *)
Definition tag : matcher :=
  fun s => exact (lit "<") s >>= one not_gt >>= star not_gt >>= exact (lit ">").

(** [```html\s*] *)
Definition fence_html : matcher :=
  fun s => exact (lit "```html") s >>= star is_space.

(** [```\s*] *)
Definition fence : matcher :=
  fun s => exact (lit "```") s >>= star is_space.

(** [\s*<body>\s*<!DOCTYPE html>], what follows [</head>] below. *)
Definition body_doctype : matcher :=
  fun s =>
    star is_space s >>= exact (lit "<body>") >>= star is_space
      >>= exact (lit "<!DOCTYPE html>").

(** [<!DOCTYPE html>\s*<html[^>]*>\s*<head>.*?</head>\s*<body>\s*<!DOCTYPE html>]
    under [re.DOTALL]. *)
Definition duplicate_preamble : matcher :=
  fun s =>
    exact (lit "<!DOCTYPE html>") s >>= star is_space
      >>= exact (lit "<html") >>= star not_gt >>= exact (lit ">")
      >>= star is_space >>= exact (lit "<head>")
      >>= first_match (fun r => exact (lit "</head>") r >>= body_doctype)
      >>= fun gr => Some (snd gr).

(** [</body>\s*</html>\s*$] *)
Definition closing_tags : matcher :=
  fun s =>
    exact (lit "</body>") s >>= star is_space >>= exact (lit "</html>")
      >>= star is_space >>= at_end.

(** The group of [open[^>]*>(.*?)close] at the start of the text, under
    [re.IGNORECASE | re.DOTALL], for an opening and a closing matcher. *)
Definition element (open close : matcher) (s : str) : option str :=
  open s >>= star not_gt >>= exact (lit ">") >>= first_match close
    >>= fun gr => Some (fst gr).

(** [<h1[^>]*>(.*?)</h1>] *)
Definition h1 : str -> option str :=
  element (exact_ci (lit "<h1")) (exact_ci (lit "</h1>")).

(** [<h[1-6][^>]*>(.*?)</h[1-6]>] *)
Definition heading : str -> option str :=
  element
    (fun s => exact_ci (lit "<h") s >>= one digit_1_6)
    (fun s => exact_ci (lit "</h") s >>= one digit_1_6 >>= exact (lit ">")).

(** [<title[^>]*>(.*?)</title>] *)
Definition title_tag : str -> option str :=
  element (exact_ci (lit "<title")) (exact_ci (lit "</title>")).

(** [re.sub(r'<[^>]+>', '', s)] *)
Definition strip_tags (s : str) : str := sub tag [] s.

End Re.

(** ** [ai_generator.py] *)

Module AiGenerator.
Import PyStr.

(** A text between double quotes. *)
Definition q (s : string) : str := [DQ] ++ lit s ++ [DQ].

(** The entries of the [seo_data] dictionary that the generator reads
    with [.get]; an absent key is [None]. *)
Record seo_dict := {
  sd_search_volume : option Z;
  sd_keyword_difficulty : option Z;
  sd_competition_level : option str;
  sd_related_keywords : option (list str)
}.

(** The dictionary [generate_blog_post] returns. *)
Record blog_post := {
  title : str;
  content : str;
  word_count : nat;
  meta_description : str;
  tags : list str;
  estimated_reading_time : str
}.

(** [dict.get(key, default)] *)
Definition get {A} (x : option A) (default : A) : A :=
  match x with
  | Some a => a
  | None => default
  end.

(** [clean_markdown_artifacts] *)
Definition clean_markdown_artifacts (content : str) : str :=
  let content := Re.sub Re.fence_html [] content in
  let content := Re.sub Re.fence [] content in
  let content := Re.sub Re.duplicate_preamble (lit "<!DOCTYPE html>") content in
  let content := Re.sub Re.closing_tags [] content in
  strip content.

(** [create_blog_post_prompt] *)
Definition create_blog_post_prompt (keyword : str) (seo_data : seo_dict) : str :=
  let related :=
    join (lit ", ") (firstn 5 (get (sd_related_keywords seo_data) [])) in
  let volume :=
    match sd_search_volume seo_data with
    | Some v => str_of_Z v
    | None => lit "N/A"
    end in
  let difficulty :=
    match sd_keyword_difficulty seo_data with
    | Some v => str_of_Z v
    | None => lit "N/A"
    end in
  let competition := get (sd_competition_level seo_data) (lit "Medium") in
    lit "
Write a comprehensive, SEO-optimized blog post about " ++ [DQ] ++ keyword ++ [DQ] ++ lit ".

SEO Data Context:
- Search Volume: " ++ volume ++ lit "
- Keyword Difficulty: " ++ difficulty ++ lit "
- Competition Level: " ++ competition ++ lit "
- Related Keywords: " ++ related ++ lit "

Requirements:
1. Create an engaging title with the main keyword
2. Write a compelling introduction that hooks the reader
3. Structure the content with clear H2 and H3 headings
4. Include the main keyword naturally throughout (aim for 1-2% density)
5. Incorporate related keywords naturally
6. Add 3-5 placeholder affiliate links using the format {{AFF_LINK_1}}, {{AFF_LINK_2}}, etc.
7. Include a FAQ section with 3-4 common questions
8. End with a compelling conclusion that encourages action
9. Make it approximately 1500-2000 words
10. Use HTML formatting for structure

Content Style:
- Write in a friendly, authoritative tone
- Use bullet points and numbered lists where appropriate
- Include practical tips and actionable advice
- Make it valuable for readers searching for " ++ [DQ] ++ keyword ++ [DQ] ++ lit "
- Naturally mention product features, benefits, and comparisons

IMPORTANT: Return ONLY the HTML content without any markdown code blocks, backticks, or extra formatting. Start directly with the HTML content.
".

(** [extract_title]: the h1 element, then any heading, then the title
    element, then the first line with more than 10 characters of text. *)
Fixpoint first_text_line (lines : list str) : option str :=
  match lines with
  | [] => None
  | line :: rest =>
      let clean_line := strip (Re.strip_tags line) in
      if 10 <? List.length clean_line
      then Some (firstn 100 clean_line
                   ++ (if 100 <? List.length clean_line then lit "..." else []))
      else first_text_line rest
  end.

Definition extract_title (content : str) : str :=
  match Re.search Re.h1 content with
  | Some g => strip g
  | None =>
      match Re.search Re.heading content with
      | Some g => strip g
      | None =>
          match Re.search Re.title_tag content with
          | Some g => strip g
          | None =>
              match first_text_line (split_on NL content) with
              | Some t => t
              | None => lit "Generated Blog Post"
              end
          end
      end
  end.

(** [extract_title_text] *)
Definition extract_title_text (content : str) : str :=
  strip (Re.strip_tags (extract_title content)).

(** The affiliate placeholders and their links, in the order of the
    dictionary of [process_blog_content]. *)
Definition affiliate_links : list (str * str) :=
  [ (lit "{{AFF_LINK_1}}", lit "https://amazon.com/affiliate/product1?tag=yourtag");
    (lit "{{AFF_LINK_2}}", lit "https://amazon.com/affiliate/product2?tag=yourtag");
    (lit "{{AFF_LINK_3}}", lit "https://amazon.com/affiliate/product3?tag=yourtag");
    (lit "{{AFF_LINK_4}}", lit "https://bestbuy.com/affiliate/product4?tag=yourtag");
    (lit "{{AFF_LINK_5}}", lit "https://walmart.com/affiliate/product5?tag=yourtag") ].

Definition replace_links (content : str) : str :=
  fold_left (fun c pl => replace (fst pl) (snd pl) c) affiliate_links content.

(** The HTML shell of [process_blog_content]. *)
Definition html_shell (title content : str) : str :=
  lit "<!DOCTYPE html>
<html lang=" ++ q "en" ++ lit ">
<head>
    <meta charset=" ++ q "UTF-8" ++ lit ">
    <meta name=" ++ q "viewport" ++ lit " content=" ++ q "width=device-width, initial-scale=1.0" ++ lit ">
    <title>" ++ title ++ lit "</title>
    <style>
        body { font-family: Arial, sans-serif; line-height: 1.6; max-width: 800px; margin: 0 auto; padding: 20px; }
        h1, h2, h3 { color: #333; }
        a { color: #007bff; text-decoration: none; }
        a:hover { text-decoration: underline; }
        .faq { margin-top: 30px; }
        .faq h3 { margin-top: 20px; }
    </style>
</head>
<body>
" ++ content ++ lit "
</body>
</html>".

(** [process_blog_content] *)
Definition process_blog_content (content keyword : str) : str :=
  let content := replace_links content in
  if negb (startswith (lit "<!DOCTYPE html>") (strip content))
  then
    let title :=
      match extract_title_text content with
      | [] => PyStr.title keyword ++ lit " - Expert Guide"
      | t => t
      end in
    html_shell title content
  else content.

(** [generate_meta_description] *)
Definition truncate_description (paragraph : str) : str :=
  let description := slice_to 155 paragraph in
  if 155 <? List.length paragraph
  then rsplit1_head SP description ++ lit "..."
  else description.

Definition generic_description (keyword : str) : str :=
  lit "Discover everything you need to know about " ++ keyword
    ++ lit ". Expert reviews, comparisons, and buying guides to help you make the best choice.".

Definition nonempty (s : str) : bool :=
  match s with [] => false | _ :: _ => true end.

Fixpoint first_paragraph (keyword : str) (paragraphs : list str) : option str :=
  match paragraphs with
  | [] => None
  | paragraph :: rest =>
      if contains (lower keyword) (lower paragraph)
         && (50 <? List.length paragraph)
      then Some (truncate_description paragraph)
      else first_paragraph keyword rest
  end.

Definition paragraphs_of (content : str) : list str :=
  let clean_content := Re.strip_tags content in
  map strip (filter (fun p => nonempty (strip p)) (split_on NL clean_content)).

Definition generate_meta_description (keyword content : str) : str :=
  match first_paragraph keyword (firstn 5 (paragraphs_of content)) with
  | Some description => description
  | None => generic_description keyword
  end.

(** [generate_tags] *)
Definition generic_tags : list str :=
  [lit "review"; lit "guide"; lit "buying guide"; lit "2024"; lit "best"].

Definition generate_tags (keyword : str) (seo_data : seo_dict) : list str :=
  let tags := [keyword] in
  let related := get (sd_related_keywords seo_data) [] in
  let tags := tags ++ firstn 5 related in
  let joined := lower (join [SP] tags) in
  let tags := tags ++ filter (fun tag => negb (contains tag joined)) generic_tags in
  firstn 10 tags.

(** [len(re.sub(r'<[^>]+>', '', content).split())] *)
Definition count_words (content : str) : nat :=
  List.length (split (Re.strip_tags content)).

(** [calculate_reading_time] *)
Definition calculate_reading_time (content : str) : str :=
  let word_count := count_words content in
  let reading_time := Z.max 1 (PyNum.round (Z.of_nat word_count # 225)) in
  str_of_Z reading_time ++ lit " min read".

(** [generate_fallback_content]; [month_year] is
    [datetime.now().strftime('%B %Y')]. *)
Definition fallback_title (keyword : str) : str :=
  lit "The Ultimate Guide to " ++ PyStr.title keyword
    ++ lit ": Everything You Need to Know".

Definition fallback_html (month_year keyword title : str) : str :=
  lit "<!DOCTYPE html>
<html lang=" ++ q "en" ++ lit ">
<head>
    <meta charset=" ++ q "UTF-8" ++ lit ">
    <meta name=" ++ q "viewport" ++ lit " content=" ++ q "width=device-width, initial-scale=1.0" ++ lit ">
    <title>" ++ title ++ lit "</title>
    <style>
        body { font-family: Arial, sans-serif; line-height: 1.6; max-width: 800px; margin: 0 auto; padding: 20px; }
        h1, h2, h3 { color: #333; }
        a { color: #007bff; text-decoration: none; }
        a:hover { text-decoration: underline; }
        .faq { margin-top: 30px; }
        .faq h3 { margin-top: 20px; }
    </style>
</head>
<body>
    <h1>" ++ title ++ lit "</h1>
    
    <p>Welcome to our comprehensive guide about <strong>" ++ keyword ++ lit "</strong>. In this article, we'll cover everything you need to know to make an informed decision.</p>
    
    <h2>What Makes Great " ++ PyStr.title keyword ++ lit "?</h2>
    <p>When looking for the best " ++ keyword ++ lit ", there are several key factors to consider:</p>
    <ul>
        <li>Quality and durability</li>
        <li>Value for money</li>
        <li>User reviews and ratings</li>
        <li>Brand reputation</li>
        <li>Warranty and support</li>
    </ul>
    
    <h2>Top Recommendations</h2>
    <p>Based on our research and testing, here are our top picks for " ++ keyword ++ lit ":</p>
    
    <h3>1. Premium Choice</h3>
    <p>For those looking for the best quality, we recommend checking out <a href=" ++ q "https://amazon.com/affiliate/product1?tag=yourtag" ++ lit " target=" ++ q "_blank" ++ lit " rel=" ++ q "noopener" ++ lit ">this premium option</a>.</p>
    
    <h3>2. Best Value</h3>
    <p>If you're looking for great value, <a href=" ++ q "https://amazon.com/affiliate/product2?tag=yourtag" ++ lit " target=" ++ q "_blank" ++ lit " rel=" ++ q "noopener" ++ lit ">this budget-friendly choice</a> offers excellent features at an affordable price.</p>
    
    <h2>Buying Guide</h2>
    <p>Here's what to look for when shopping for " ++ keyword ++ lit ":</p>
    <ol>
        <li>Set your budget range</li>
        <li>Read customer reviews</li>
        <li>Compare features</li>
        <li>Check warranty terms</li>
        <li>Consider future needs</li>
    </ol>
    
    <div class=" ++ q "faq" ++ lit ">
        <h2>Frequently Asked Questions</h2>
        
        <h3>What's the best " ++ keyword ++ lit " for beginners?</h3>
        <p>For beginners, we recommend starting with <a href=" ++ q "https://amazon.com/affiliate/product3?tag=yourtag" ++ lit " target=" ++ q "_blank" ++ lit " rel=" ++ q "noopener" ++ lit ">this user-friendly option</a> that offers great features without overwhelming complexity.</p>
        
        <h3>How much should I spend on " ++ keyword ++ lit "?</h3>
        <p>The price range varies widely, but you can find quality options starting from budget-friendly to premium levels. Consider your specific needs and budget.</p>
        
        <h3>Are there any special features I should look for?</h3>
        <p>Look for features that match your specific use case, such as durability, ease of use, and compatibility with your existing setup.</p>
    </div>
    
    <h2>Conclusion</h2>
    <p>Choosing the right " ++ keyword ++ lit " doesn't have to be complicated. By considering the factors we've outlined and checking out our recommended options, you'll be well on your way to making the perfect choice for your needs.</p>
    
    <p><em>Last updated: " ++ month_year ++ lit "</em></p>
</body>
</html>".

Definition generate_fallback_content
    (month_year keyword : str) (seo_data : seo_dict) : blog_post :=
  let title := fallback_title keyword in
  let content := fallback_html month_year keyword title in
  {| title := title;
     content := content;
     word_count := count_words content;
     meta_description :=
       lit "Complete guide to " ++ keyword
         ++ lit ". Expert recommendations, buying tips, and reviews to help you choose the best "
         ++ keyword ++ lit " for your needs.";
     tags := generate_tags keyword seo_data;
     estimated_reading_time := calculate_reading_time content |}.

(** What a call gives: a value, or an exception with its message. *)
Inductive outcome (A : Type) : Type :=
| Returned (a : A)
| Raised (message : str).
Arguments Returned {A} a.
Arguments Raised {A} message.

(** What [generate_blog_post] finds around it: the key read from
    [OPENAI_API_KEY] when the module is loaded, the chat completion
    service (from the system and user messages to the text of the first
    choice, or an exception), and the clock. *)
Record environment := {
  api_key : option str;
  chat_completion : str -> str -> outcome str;
  month_year : str
}.

Definition system_message : str :=
  lit "You are an expert SEO content writer and affiliate marketer. Create engaging, informative blog posts that rank well in search engines and naturally incorporate affiliate links. Return ONLY clean HTML content without any markdown code blocks or extra formatting.".

(** [try: body except Exception: handler] *)
Definition try_except {A} (body : outcome A) (handler : str -> outcome A) : outcome A :=
  match body with
  | Returned a => Returned a
  | Raised e => handler e
  end.

Definition bind_outcome {A B} (x : outcome A) (f : A -> outcome B) : outcome B :=
  match x with
  | Returned a => f a
  | Raised e => Raised e
  end.

(** [not openai.api_key]: no key, or an empty one. *)
Definition no_key (env : environment) : bool :=
  match api_key env with
  | Some (_ :: _) => false
  | _ => true
  end.

(** [generate_blog_post]; the two warnings it prints are not modelled. *)
Definition generate_blog_post
    (env : environment) (keyword : str) (seo_data : seo_dict) : outcome blog_post :=
  if no_key env
  then Returned (generate_fallback_content (month_year env) keyword seo_data)
  else
    let prompt := create_blog_post_prompt keyword seo_data in
    try_except
      (bind_outcome (chat_completion env system_message prompt) (fun response =>
         let raw_content := strip response in
         let raw_content := clean_markdown_artifacts raw_content in
         let processed_content := process_blog_content raw_content keyword in
         Returned
           {| title := extract_title processed_content;
              content := processed_content;
              word_count := count_words processed_content;
              meta_description := generate_meta_description keyword processed_content;
              tags := generate_tags keyword seo_data;
              estimated_reading_time := calculate_reading_time processed_content |}))
      (fun _ =>
         Returned (generate_fallback_content (month_year env) keyword seo_data)).

End AiGenerator.

(** ** [seo_fetcher.py] *)

Module SeoFetcher.
Import PyStr.

(** *** The random source

    [random.random()] reads the next draw of a tape of numbers of the
    unit interval; the other functions of the [random] module are
    written from it as the library documents them. *)

Record rng := { tape : nat -> Q; pos : nat }.

Definition Rand (A : Type) : Type := rng -> A * rng.

Definition ret {A} (a : A) : Rand A := fun g => (a, g).

Definition bind {A B} (m : Rand A) (f : A -> Rand B) : Rand B :=
  fun g => let (a, g') := m g in f a g'.

Notation "x <- m ;; k" := (bind m (fun x => k))
  (at level 61, m at next level, right associativity).

(** [random.random()] *)
Definition random : Rand Q :=
  fun g => (tape g (pos g), {| tape := tape g; pos := S (pos g) |}).

(** A draw below [n], for [0 < n]. *)
Definition randbelow (n : Z) : Rand Z :=
  u <- random ;; ret (Qfloor (u * inject_Z n)).

(** [random.randint(a, b)] *)
Definition randint (a b : Z) : Rand Z :=
  r <- randbelow (b - a + 1) ;; ret (a + r)%Z.

(** [random.uniform(a, b)] *)
Definition uniform (a b : Q) : Rand Q :=
  u <- random ;; ret (a + (b - a) * u).

(** [random.sample(population, k)] for a population of at most 21
    elements: the chosen place of the pool is refilled with the last
    element still in it. *)
Fixpoint sample_go {A} (k : nat) (pool : list A) : Rand (list A) :=
  match k with
  | O => ret []
  | S k' =>
      j <- randbelow (Z.of_nat (List.length pool)) ;;
      match nth_error pool (Z.to_nat j), nth_error pool (List.length pool - 1) with
      | Some x, Some last =>
          let pool' :=
            firstn (List.length pool - 1)
              (firstn (Z.to_nat j) pool ++ last :: skipn (S (Z.to_nat j)) pool) in
          rest <- sample_go k' pool' ;; ret (x :: rest)
      | _, _ => ret []
      end
  end.

Definition sample {A} (population : list A) (k : nat) : Rand (list A) :=
  sample_go k population.

(** *** The generator *)

Record page := {
  url : str;
  page_title : str;
  domain_authority : Z
}.

Record seo_data := {
  keyword : str;
  search_volume : Z;
  keyword_difficulty : Z;
  avg_cpc : Q;
  related_keywords : list str;
  top_ranking_pages : list page;
  search_trends : list (str * Z);
  competition_level : str;
  suggested_bid : Q
}.

(** [get_competition_level] *)
Definition get_competition_level (difficulty_score : Z) : str :=
  if (difficulty_score <? 30)%Z then lit "Low"
  else if (difficulty_score <? 60)%Z then lit "Medium"
  else lit "High".

(** [generate_related_keywords] *)
Definition base_modifiers : list str :=
  [ lit "best"; lit "top"; lit "review"; lit "guide"; lit "how to";
    lit "cheap"; lit "discount"; lit "2024"; lit "2025"; lit "buy";
    lit "price"; lit "vs"; lit "comparison"; lit "alternative" ].

Definition str_eqb (a b : str) : bool :=
  if list_eq_dec ascii_dec a b then true else false.

Definition mem (x : str) (l : list str) : bool := existsb (str_eqb x) l.

Definition related_of (main_keyword modifier : str) : str :=
  if mem modifier [lit "how to"]
  then modifier ++ lit " choose " ++ main_keyword
  else if mem modifier [lit "vs"; lit "comparison"]
  then main_keyword ++ [SP] ++ modifier
  else modifier ++ [SP] ++ main_keyword.

Definition generate_related_keywords (main_keyword : str) : Rand (list str) :=
  let words := split main_keyword in
  modifiers <- sample base_modifiers (Nat.min 5 (List.length base_modifiers)) ;;
  let related := map (related_of main_keyword) modifiers in
  let related :=
    if 1 <? List.length words
    then related ++ [join [SP] (rev words)]
    else related in
  ret (firstn 8 related).

(** [generate_search_trends] *)
Definition months : list str :=
  [ lit "Jan"; lit "Feb"; lit "Mar"; lit "Apr"; lit "May"; lit "Jun";
    lit "Jul"; lit "Aug"; lit "Sep"; lit "Oct"; lit "Nov"; lit "Dec" ].

Fixpoint trends_of (base_volume : Z) (ms : list str) : Rand (list (str * Z)) :=
  match ms with
  | [] => ret []
  | month :: rest =>
      variation <- randint (-20) 30 ;;
      trends <- trends_of base_volume rest ;;
      ret ((month, Z.max 10 (base_volume + variation)) :: trends)
  end.

Definition generate_search_trends : Rand (list (str * Z)) :=
  base_volume <- randint 70 100 ;;
  trends_of base_volume months.

(** The list of top ranking pages. *)
Fixpoint top_pages_of (kw : str) (indices : list nat) : Rand (list page) :=
  match indices with
  | [] => ret []
  | i :: rest =>
      picks <- randint 5 15 ;;
      authority <- randint 40 90 ;;
      pages <- top_pages_of kw rest ;;
      ret ({| url := lit "https://example" ++ str_of_nat i
                       ++ lit ".com/article-about-" ++ replace [SP] (lit "-") kw;
              page_title := lit "Ultimate Guide to " ++ title kw ++ lit " - Top "
                              ++ str_of_Z picks ++ lit " Picks";
              domain_authority := authority |} :: pages)
  end.

(** The band of metrics chosen by the number of words: search volume,
    keyword difficulty, average cost per click. *)
Definition band (word_count : nat) : Rand (Z * Z * Q) :=
  if 4 <=? word_count then
    search_volume <- randint 100 2000 ;;
    keyword_difficulty <- randint 15 45 ;;
    cpc <- uniform 0.50 3.50 ;;
    ret (search_volume, keyword_difficulty, PyNum.round2 cpc)
  else if word_count =? 3 then
    search_volume <- randint 1000 8000 ;;
    keyword_difficulty <- randint 35 65 ;;
    cpc <- uniform 1.50 6.00 ;;
    ret (search_volume, keyword_difficulty, PyNum.round2 cpc)
  else
    search_volume <- randint 5000 50000 ;;
    keyword_difficulty <- randint 60 95 ;;
    cpc <- uniform 3.00 15.00 ;;
    ret (search_volume, keyword_difficulty, PyNum.round2 cpc).

Definition commercial_keywords : list str :=
  [ lit "buy"; lit "best"; lit "review"; lit "price"; lit "cheap";
    lit "discount"; lit "deal" ].

Definition informational_keywords : list str :=
  [ lit "how"; lit "what"; lit "why"; lit "guide"; lit "tutorial"; lit "tips" ].

(** [any(word in keyword_lower for word in words)] *)
Definition any_in (words : list str) (keyword_lower : str) : bool :=
  existsb (fun word => contains word keyword_lower) words.

(** The adjustment by keyword type, on the average cost per click and
    the search volume. *)
Definition adjust (keyword_lower : str) (avg_cpc : Q) (search_volume : Z)
  : Rand (Q * Z) :=
  if any_in commercial_keywords keyword_lower then
    f <- uniform 1.5 2.5 ;;
    v <- uniform 0.8 1.2 ;;
    ret (avg_cpc * f, PyNum.int (inject_Z search_volume * v))
  else if any_in informational_keywords keyword_lower then
    f <- uniform 0.3 0.8 ;;
    v <- uniform 1.2 1.8 ;;
    ret (avg_cpc * f, PyNum.int (inject_Z search_volume * v))
  else ret (avg_cpc, search_volume).

(** [generate_mock_seo_data] *)
Definition generate_mock_seo_data (kw : str) : Rand seo_data :=
  let word_count := List.length (split kw) in
  b <- band word_count ;;
  let '(search_volume, keyword_difficulty, avg_cpc) := b in
  let keyword_lower := lower kw in
  a <- adjust keyword_lower avg_cpc search_volume ;;
  let '(avg_cpc, search_volume) := a in
  related_keywords <- generate_related_keywords kw ;;
  top_pages <- top_pages_of kw [1; 2; 3; 4; 5]%nat ;;
  trends <- generate_search_trends ;;
  bid <- uniform 0.8 1.2 ;;
  ret {| keyword := kw;
         search_volume := search_volume;
         keyword_difficulty := keyword_difficulty;
         avg_cpc := PyNum.round2 avg_cpc;
         related_keywords := related_keywords;
         top_ranking_pages := top_pages;
         search_trends := trends;
         competition_level := get_competition_level keyword_difficulty;
         suggested_bid := PyNum.round2 (avg_cpc * bid) |}.

(** [get_seo_data]: the table read from [mock_seo_data.json], when the
    file exists, is consulted first. *)
Fixpoint lookup (key : str) (table : list (str * seo_data)) : option seo_data :=
  match table with
  | [] => None
  | (k, v) :: rest => if str_eqb k key then Some v else lookup key rest
  end.

Definition get_seo_data (mock_database : option (list (str * seo_data))) (kw : str)
  : Rand seo_data :=
  match mock_database with
  | Some table =>
      match lookup (lower kw) table with
      | Some data => ret data
      | None => generate_mock_seo_data kw
      end
  | None => generate_mock_seo_data kw
  end.

(** The entries of a record that [ai_generator.py] reads. *)
Definition as_dict (d : seo_data) : AiGenerator.seo_dict :=
  {| AiGenerator.sd_search_volume := Some (search_volume d);
     AiGenerator.sd_keyword_difficulty := Some (keyword_difficulty d);
     AiGenerator.sd_competition_level := Some (competition_level d);
     AiGenerator.sd_related_keywords := Some (related_keywords d) |}.

End SeoFetcher.

(** ** Files, and [save_blog_post] of [ai_generator.py]

    The disk is the text of each file written, the latest first; a write
    that the system refuses raises.  The directory tree, the encoding of
    the text and the log are not modelled.  [json.dump] and [jsonify] are
    handed a dictionary, built here as the source builds it; the text
    they make of it is the library's. *)

Module Storage.
Import PyStr AiGenerator.

(** A value handed to [json.dump] or [jsonify]. *)
#[local] Unset Elimination Schemes.
Inductive json : Type :=
| JNull
| JInt (z : Z)
| JFloat (q : Q)
| JStr (s : str)
| JList (l : list json)
| JDict (d : list (str * json)).
#[local] Set Elimination Schemes.

(** The dictionary of a post. *)
Definition post_dict (post : blog_post) : json :=
  JDict
    [ (lit "title", JStr (title post));
      (lit "content", JStr (content post));
      (lit "word_count", JInt (Z.of_nat (word_count post)));
      (lit "meta_description", JStr (meta_description post));
      (lit "tags", JList (map JStr (tags post)));
      (lit "estimated_reading_time", JStr (estimated_reading_time post)) ].

Definition disk := list (str * str).

(** The text of a file, when it was written. *)
Fixpoint read (path : str) (d : disk) : option str :=
  match d with
  | [] => None
  | (p, text) :: rest =>
      if SeoFetcher.str_eqb p path then Some text else read path rest
  end.

(** What the code finds around it when it saves: the paths the system
    refuses to create or write, with the message of the error raised,
    the text [json.dump] makes of a value with indent 2, given the flag
    [ensure_ascii], and the two readings of the clock,
    [datetime.now().strftime("%Y%m%d_%H%M%S")] and
    [datetime.now().isoformat()]. *)
Record host := {
  refuses : str -> bool;
  os_error : str -> str;
  dumps : bool -> json -> str;
  timestamp : str;
  isoformat : str
}.

(** A computation on the disk that may raise. *)
Definition IO (A : Type) : Type := disk -> outcome A * disk.

Definition io_ret {A} (a : A) : IO A := fun d => (Returned a, d).

Definition io_bind {A B} (m : IO A) (f : A -> IO B) : IO B :=
  fun d =>
    match m d with
    | (Returned a, d') => f a d'
    | (Raised e, d') => (Raised e, d')
    end.

Notation "x <- m ;;; k" := (io_bind m (fun x => k))
  (at level 61, m at next level, right associativity).

(** [os.makedirs(path, exist_ok=True)] *)
Definition makedirs (h : host) (path : str) : IO unit :=
  fun d => if refuses h path then (Raised (os_error h path), d) else (Returned tt, d).

(** [with open(path, 'w', encoding='utf-8') as f: f.write(text)] *)
Definition write_text (h : host) (path text : str) : IO unit :=
  fun d =>
    if refuses h path then (Raised (os_error h path), d)
    else (Returned tt, (path, text) :: d).

(** [keyword.replace(' ', '_').replace('/', '_')] *)
Definition safe_keyword (keyword : str) : str :=
  replace (lit "/") (lit "_") (replace [SP] (lit "_") keyword).

(** [save_blog_post] *)
Definition save_blog_post
    (h : host) (blog_post_data : blog_post) (keyword output_dir : str) : IO str :=
  _ <- makedirs h output_dir ;;;
  let html_filename :=
    output_dir ++ lit "/" ++ safe_keyword keyword ++ lit "_" ++ timestamp h
      ++ lit ".html" in
  _ <- write_text h html_filename (content blog_post_data) ;;;
  let json_filename :=
    output_dir ++ lit "/" ++ safe_keyword keyword ++ lit "_" ++ timestamp h
      ++ lit ".json" in
  _ <- write_text h json_filename (dumps h false (post_dict blog_post_data)) ;;;
  io_ret html_filename.

End Storage.

(** ** [create_mock_database] of [seo_fetcher.py] *)

Module MockDatabase.
Import PyStr SeoFetcher Storage.

Definition test_keywords : list str :=
  [ lit "wireless earbuds"; lit "best headphones"; lit "laptop reviews";
    lit "gaming mouse"; lit "smartphone 2024"; lit "fitness tracker";
    lit "coffee maker"; lit "air fryer recipes"; lit "yoga mat";
    lit "running shoes" ].

(** [d[key] = value] on a dictionary kept in insertion order. *)
Fixpoint dict_set {V} (key : str) (value : V) (d : list (str * V)) : list (str * V) :=
  match d with
  | [] => [(key, value)]
  | (k, v) :: rest =>
      if str_eqb k key then (k, value) :: rest
      else (k, v) :: dict_set key value rest
  end.

(** The loop that fills [mock_db]. *)
Fixpoint fill (keywords : list str) (mock_db : list (str * seo_data))
  : Rand (list (str * seo_data)) :=
  match keywords with
  | [] => ret mock_db
  | kw :: rest =>
      data <- generate_mock_seo_data kw ;;
      fill rest (dict_set (lower kw) data mock_db)
  end.

(** The dictionary of a record, and of the table. *)
Definition page_dict (p : page) : json :=
  JDict
    [ (lit "url", JStr (url p));
      (lit "title", JStr (page_title p));
      (lit "domain_authority", JInt (domain_authority p)) ].

Definition seo_data_dict (d : seo_data) : json :=
  JDict
    [ (lit "keyword", JStr (keyword d));
      (lit "search_volume", JInt (search_volume d));
      (lit "keyword_difficulty", JInt (keyword_difficulty d));
      (lit "avg_cpc", JFloat (avg_cpc d));
      (lit "related_keywords", JList (map JStr (related_keywords d)));
      (lit "top_ranking_pages", JList (map page_dict (top_ranking_pages d)));
      (lit "search_trends", JDict (map (fun mv => (fst mv, JInt (snd mv))) (search_trends d)));
      (lit "competition_level", JStr (competition_level d));
      (lit "suggested_bid", JFloat (suggested_bid d)) ].

(** [create_mock_database]: the table is built, then written. *)
Definition create_mock_database (h : host) (g : rng) : IO unit * rng :=
  let (mock_db, g') := fill test_keywords [] g in
  (write_text h (lit "mock_seo_data.json")
     (dumps h true (JDict (map (fun kv => (fst kv, seo_data_dict (snd kv))) mock_db))),
   g').

End MockDatabase.

(** ** [app.py]: the handlers that generate posts

    A handler is given the arguments of the request and answers with the
    dictionary handed to [jsonify] and a status code.  The world is the
    random source and the disk. *)

Module App.
Import PyStr AiGenerator SeoFetcher Storage MockDatabase.

Record world := { w_rng : rng; w_disk : disk }.

(** What the handlers find around them: the environment of the
    generator, the host, the table read from [mock_seo_data.json] (no
    table when the file does not exist, an exception when it cannot be
    read), and the variable [DAILY_KEYWORD]. *)
Record app_env := {
  ai : environment;
  machine : host;
  mock_database : outcome (option (list (str * seo_data)));
  daily_keyword_var : option str
}.

(** A computation on the world that may raise. *)
Definition Act (A : Type) : Type := world -> outcome A * world.

Definition act_ret {A} (a : A) : Act A := fun w => (Returned a, w).

Definition act_bind {A B} (m : Act A) (f : A -> Act B) : Act B :=
  fun w =>
    match m w with
    | (Returned a, w') => f a w'
    | (Raised e, w') => (Raised e, w')
    end.

Notation "x <~ m ;; k" := (act_bind m (fun x => k))
  (at level 61, m at next level, right associativity).

(** [try: body except Exception as e: handler(str(e))] *)
Definition act_try {A} (body : Act A) (handler : str -> Act A) : Act A :=
  fun w =>
    match body w with
    | (Returned a, w') => (Returned a, w')
    | (Raised e, w') => handler e w'
    end.

Definition on_disk {A} (m : IO A) : Act A :=
  fun w =>
    let (r, d) := m (w_disk w) in (r, {| w_rng := w_rng w; w_disk := d |}).

Definition drawing {A} (m : Rand A) : Act A :=
  fun w =>
    let (a, g) := m (w_rng w) in (Returned a, {| w_rng := g; w_disk := w_disk w |}).

Definition raising {A} (r : outcome A) : Act A := fun w => (r, w).

(** [get_seo_data] with the reading of the file. *)
Definition fetch_seo_data (env : app_env) (kw : str) : Act seo_data :=
  table <~ raising (mock_database env) ;;
  drawing (get_seo_data table kw).

(** [request.args.get(key)] and [request.args.get(key, default)] *)
Fixpoint args_get (args : list (str * str)) (key : str) : option str :=
  match args with
  | [] => None
  | (k, v) :: rest => if str_eqb k key then Some v else args_get rest key
  end.

Definition args_get_default (args : list (str * str)) (key default : str) : str :=
  match args_get args key with
  | Some v => v
  | None => default
  end.

Definition json_of_option (o : option str) : json :=
  match o with
  | Some s => JStr s
  | None => JNull
  end.

Definition error_body (message : str) : json := JDict [(lit "error", JStr message)].

(** [generate], the handler of [/generate] *)
Definition generate (env : app_env) (args : list (str * str)) : Act (json * Z) :=
  let keyword := args_get args (lit "keyword") in
  let save_post :=
    str_eqb (lower (args_get_default args (lit "save") (lit "false"))) (lit "true") in
  match keyword with
  | None | Some [] =>
      act_ret (error_body (lit "keyword parameter is required"), 400%Z)
  | Some keyword =>
      act_try
        (seo_data <~ fetch_seo_data env keyword ;;
         blog_post <~ raising (generate_blog_post (ai env) keyword (as_dict seo_data)) ;;
         saved_file <~
           (if save_post
            then path <~ on_disk (save_blog_post (machine env) blog_post keyword
                                    (lit "generated_posts")) ;;
                 act_ret (Some path)
            else act_ret None) ;;
         act_ret
           (JDict
              [ (lit "keyword", JStr keyword);
                (lit "seo_data", seo_data_dict seo_data);
                (lit "blog_post", post_dict blog_post);
                (lit "generated_at", JStr (isoformat (machine env)));
                (lit "saved_file", json_of_option saved_file) ],
            200%Z))
        (fun e => act_ret (error_body e, 500%Z))
  end.

(** [generate_daily_post] *)
Definition generate_daily_post (env : app_env) : Act unit :=
  let daily_keyword :=
    match daily_keyword_var env with
    | Some kw => kw
    | None => lit "wireless earbuds"
    end in
  act_try
    (seo_data <~ fetch_seo_data env daily_keyword ;;
     blog_post <~ raising (generate_blog_post (ai env) daily_keyword (as_dict seo_data)) ;;
     let stem :=
       lit "daily_posts/daily_post_" ++ safe_keyword daily_keyword ++ lit "_"
         ++ timestamp (machine env) in
     _ <~ on_disk (makedirs (machine env) (lit "daily_posts")) ;;
     let data :=
       JDict
         [ (lit "keyword", JStr daily_keyword);
           (lit "seo_data", seo_data_dict seo_data);
           (lit "blog_post", post_dict blog_post);
           (lit "generated_at", JStr (isoformat (machine env))) ] in
     _ <~ on_disk (write_text (machine env) (stem ++ lit ".json")
                     (dumps (machine env) false data)) ;;
     _ <~ on_disk (write_text (machine env) (stem ++ lit ".html") (content blog_post)) ;;
     act_ret tt)
    (fun _ => act_ret tt).

(** [trigger_daily_generation], the handler of [/generate-daily] *)
Definition trigger_daily_generation (env : app_env) : Act (json * Z) :=
  act_try
    (_ <~ generate_daily_post env ;;
     act_ret
       (JDict [(lit "message", JStr (lit "Daily post generation triggered successfully"))],
        200%Z))
    (fun e => act_ret (error_body e, 500%Z)).

End App.

(** * Notions used to state the properties *)

From Stdlib Require Import Lqa.

Unset Implicit Arguments.

Module Notions.
Import PyStr AiGenerator SeoFetcher.

(** Every draw of the tape lies in the unit interval, as
    [random.random()] promises. *)
Definition unit_tape (t : nat -> Q) : Prop :=
  forall n, 0 <= t n /\ t n < 1.

(** The three bands, as bounds on search volume and difficulty. *)
Definition in_band (word_count : nat) (volume difficulty : Z) : Prop :=
  ((4 <= word_count)%nat ->
     (100 <= volume <= 2000)%Z /\ (15 <= difficulty <= 45)%Z)
  /\ ((word_count = 3)%nat ->
     (1000 <= volume <= 8000)%Z /\ (35 <= difficulty <= 65)%Z)
  /\ ((word_count <= 2)%nat ->
     (5000 <= volume <= 50000)%Z /\ (60 <= difficulty <= 95)%Z).

(** A tape whose every draw is the same. *)
Definition constant_tape (u : Q) : rng := {| tape := fun _ => u; pos := 0 |}.




(** A text of [n] words, each in a paragraph of its own. *)
Definition words_text (n : nat) : str := List.concat (repeat (lit "<p>word</p> ") n).

(** The three affiliate links of the fallback template. *)
Definition product_link (n : string) : str :=
  lit "https://amazon.com/affiliate/product" ++ lit n ++ lit "?tag=yourtag".

(** An environment with no key, whose service would raise if called. *)
Definition no_credential : environment :=
  {| api_key := None;
     chat_completion := fun _ _ => Raised (lit "no key");
     month_year := lit "November 2026" |}.

(** A [seo_data] dictionary with none of the keys the generator reads. *)
Definition empty_seo : seo_dict :=
  {| sd_search_volume := None;
     sd_keyword_difficulty := None;
     sd_competition_level := None;
     sd_related_keywords := None |}.

(** A pattern that does not end in white space. *)
Fixpoint ends_solid (p : str) : bool :=
  match p with
  | [] => true
  | [c] => negb (is_space c)
  | _ :: t => ends_solid t
  end.

(** Two texts that agree as far as both go. *)
Fixpoint agree (a b : str) : bool :=
  match a, b with
  | x :: a', y :: b' => Ascii.eqb x y && agree a' b'
  | _, _ => true
  end.

(** A text whose first character is not white space. *)
Definition solid_head (s : str) : bool :=
  match s with
  | [] => false
  | c :: _ => negb (is_space c)
  end.

(** A text whose first character is not [a]. *)
Definition other_head (a : ascii) (s : str) : bool :=
  match s with
  | [] => false
  | c :: _ => negb (Ascii.eqb a c)
  end.

(** No occurrence of [old] can start on a character of the pattern [p],
    and no suffix of [p] can run into [new]. *)
Fixpoint safe (old new p : str) : bool :=
  match p with
  | [] => true
  | a :: p' => other_head a old && negb (agree p new) && safe old new p'
  end.

(** A placeholder and its link that leave a leading [p] as it is. *)
Definition link_ok (p : str) (pl : str * str) : bool :=
  safe (fst pl) (snd pl) p && solid_head (fst pl) && solid_head (snd pl).

(** The declaration [process_blog_content] looks for. *)
Definition doctype : str := lit "<!DOCTYPE html>".



(** The paragraph of 160 characters used below; its 155th character is a
    space. *)
Definition paragraph_160 : str :=
  lit "A good desk lamp gives even light across the whole work surface, keeps glare off the screen and lets you set the brightness and the colour of the light as I do.".

(** [rest] is what is left of [s] after some prefix. *)
Definition suffix_of (rest s : str) : Prop := exists pre, s = pre ++ rest.

(** What a matcher leaves is a suffix of the text. *)
Definition consumes (m : Re.matcher) : Prop :=
  forall s rest, m s = Some rest -> suffix_of rest s.

(** What it leaves is shorter than the text. *)
Definition strict (m : Re.matcher) : Prop :=
  forall s rest,
    m s = Some rest -> suffix_of rest s /\ (List.length rest < List.length s)%nat.

(** The markdown code fence, and a run of [k] backticks. *)
Definition fence_mark : str := lit "```".

Definition ticks (k : nat) : str := repeat "`"%char k.

(** A complete document, with one closing pair. *)
Definition document : str :=
  lit "<!DOCTYPE html>
<html>
<body>
<h1>Desk Lamp</h1>
</body>
</html>".

End Notions.

(** * Further notions *)

Module ExtraNotions.
Import PyStr AiGenerator Notions.

(** The tags before the cut to ten: the keyword, the first five related
    keywords, the generic tags that the joined text does not hold. *)
Definition tags_joined (keyword : str) (seo_data : seo_dict) : str :=
  lower (join [SP] (keyword :: firstn 5 (get (sd_related_keywords seo_data) []))).

Definition generic_kept (keyword : str) (seo_data : seo_dict) : list str :=
  filter (fun tag => negb (contains tag (tags_joined keyword seo_data))) generic_tags.

Definition all_tags (keyword : str) (seo_data : seo_dict) : list str :=
  (keyword :: firstn 5 (get (sd_related_keywords seo_data) []))
    ++ generic_kept keyword seo_data.

(** The first character of each of two texts does not occur in the
    other. *)
Definition apart (p new : str) : bool :=
  match p, new with
  | p0 :: _, n0 :: _ =>
      negb (existsb (Ascii.eqb p0) new) && negb (existsb (Ascii.eqb n0) p)
  | _, _ => false
  end.

(** The minutes that [calculate_reading_time] prints. *)
Definition reading_minutes (content : str) : Z :=
  Z.max 1 (PyNum.round (Z.of_nat (count_words content) # 225)).

(** A space or a slash becomes an underscore. *)
Definition underscored (c : ascii) : ascii :=
  if Ascii.eqb c SP || Ascii.eqb c "/"%char then "_"%char else c.

(** The two files of a saved post. *)
Definition html_path (h : Storage.host) (kw dir : str) : str :=
  dir ++ lit "/" ++ Storage.safe_keyword kw ++ lit "_" ++ Storage.timestamp h
    ++ lit ".html".

Definition json_path (h : Storage.host) (kw dir : str) : str :=
  dir ++ lit "/" ++ Storage.safe_keyword kw ++ lit "_" ++ Storage.timestamp h
    ++ lit ".json".

(** A host that refuses the paths [refused] holds, at a fixed time. *)
Definition sample_host (refused : str -> bool) : Storage.host :=
  {| Storage.refuses := refused;
     Storage.os_error := fun path => lit "Permission denied: " ++ path;
     Storage.dumps := fun _ _ => lit "{}";
     Storage.timestamp := lit "20261104_090000";
     Storage.isoformat := lit "2026-11-04T09:00:00" |}.

Definition sample_post : blog_post :=
  generate_fallback_content (lit "November 2026") (lit "desk lamp") empty_seo.

(** The request asks for the post to be saved. *)
Definition asks_save (args : list (str * str)) : bool :=
  SeoFetcher.str_eqb
    (lower (App.args_get_default args (lit "save") (lit "false"))) (lit "true").

(** An environment of the handlers with no key for the model, the given
    table and the sample host. *)
Definition sample_env
    (table : AiGenerator.outcome (option (list (str * SeoFetcher.seo_data))))
    (refused : str -> bool) (daily : option str) : App.app_env :=
  {| App.ai := no_credential;
     App.machine := sample_host refused;
     App.mock_database := table;
     App.daily_keyword_var := daily |}.

Definition sample_world : App.world :=
  {| App.w_rng := constant_tape 0.5; App.w_disk := [] |}.


(** The keyword of the daily post, the stem of its two files and the
    answer of the handler that triggers it. *)
Definition daily_keyword (env : App.app_env) : str :=
  match App.daily_keyword_var env with
  | Some kw => kw
  | None => lit "wireless earbuds"
  end.

Definition daily_stem (env : App.app_env) : str :=
  lit "daily_posts/daily_post_" ++ Storage.safe_keyword (daily_keyword env) ++ lit "_"
    ++ Storage.timestamp (App.machine env).

Definition daily_data (env : App.app_env) (seo : SeoFetcher.seo_data) (post : blog_post)
  : Storage.json :=
  Storage.JDict
    [ (lit "keyword", Storage.JStr (daily_keyword env));
      (lit "seo_data", MockDatabase.seo_data_dict seo);
      (lit "blog_post", Storage.post_dict post);
      (lit "generated_at", Storage.JStr (Storage.isoformat (App.machine env))) ].

Definition triggered : Storage.json :=
  Storage.JDict
    [(lit "message", Storage.JStr (lit "Daily post generation triggered successfully"))].

(** Every record of the table is stored under its keyword in lower
    case. *)
Definition well_keyed (table : list (str * SeoFetcher.seo_data)) : Prop :=
  forall key d,
    SeoFetcher.lookup key table = Some d -> lower (SeoFetcher.keyword d) = key.

End ExtraNotions.

(** * Properties *)

(** ** The random source *)

Module RandFacts.
Import PyStr SeoFetcher Notions.

Lemma random_tape (g : rng) : tape (snd (random g)) = tape g.
Proof. reflexivity. Qed.

Lemma randbelow_tape n g : tape (snd (randbelow n g)) = tape g.
Proof. reflexivity. Qed.

Lemma randint_tape a b g : tape (snd (randint a b g)) = tape g.
Proof. reflexivity. Qed.

Lemma uniform_tape a b g : tape (snd (uniform a b g)) = tape g.
Proof. reflexivity. Qed.

Lemma randbelow_range n g :
  (0 < n)%Z -> unit_tape (tape g) ->
  (0 <= fst (randbelow n g) < n)%Z.
Proof.
  intros Hn Ht. cbv beta iota delta [randbelow bind random ret fst snd].
  destruct (Ht (pos g)) as [H0 H1].
  set (u := tape g (pos g)) in *.
  assert (Hq : 0 < inject_Z n) by (change 0 with (inject_Z 0); rewrite <- Zlt_Qlt; exact Hn).
  split.
  - change 0%Z with (Qfloor 0). apply Qfloor_resp_le. nra.
  - rewrite Zlt_Qlt. apply Qle_lt_trans with (u * inject_Z n).
    + apply Qfloor_le.
    + nra.
Qed.

Lemma randint_range a b g :
  (a <= b)%Z -> unit_tape (tape g) ->
  (a <= fst (randint a b g) <= b)%Z.
Proof.
  intros Hab Ht.
  assert (H := @randbelow_range (b - a + 1) g ltac:(lia) Ht).
  unfold randint, bind, ret.
  destruct (randbelow (b - a + 1) g) as [r g'] eqn:E. simpl in *. lia.
Qed.

Lemma uniform_range a b g :
  a <= b -> unit_tape (tape g) ->
  a <= fst (uniform a b g) /\ fst (uniform a b g) <= b.
Proof.
  intros Hab Ht. cbv beta iota delta [uniform bind random ret fst snd].
  destruct (Ht (pos g)) as [H0 H1].
  set (u := tape g (pos g)) in *. split; nra.
Qed.

Lemma randint_spec a b g :
  (a <= b)%Z -> unit_tape (tape g) ->
  exists r g', randint a b g = (r, g')
               /\ (a <= r <= b)%Z /\ tape g' = tape g.
Proof.
  intros Hab Ht. exists (fst (randint a b g)), (snd (randint a b g)).
  split; [apply surjective_pairing | split].
  - now apply randint_range.
  - apply randint_tape.
Qed.

Lemma uniform_spec a b g :
  a <= b -> unit_tape (tape g) ->
  exists f g', uniform a b g = (f, g')
               /\ (a <= f /\ f <= b) /\ tape g' = tape g.
Proof.
  intros Hab Ht. exists (fst (uniform a b g)), (snd (uniform a b g)).
  split; [apply surjective_pairing | split].
  - now apply uniform_range.
  - apply uniform_tape.
Qed.

End RandFacts.

(** ** The mock SEO generator *)

Module SeoFacts.
Import PyStr SeoFetcher RandFacts Notions.

Ltac draw_int a b g H :=
  let r := fresh "r" in
  let g' := fresh "g" in
  let E := fresh "E" in
  let Hr := fresh "Hr" in
  let Ht := fresh "Ht" in
  destruct (randint_spec a b g ltac:(lia) H) as (r & g' & E & Hr & Ht);
  rewrite E; rewrite <- Ht in H.

Ltac draw_float a b g H :=
  let f := fresh "f" in
  let g' := fresh "g" in
  let E := fresh "E" in
  let Hf := fresh "Hf" in
  let Ht := fresh "Ht" in
  destruct (uniform_spec a b g ltac:(lra) H) as (f & g' & E & Hf & Ht);
  rewrite E; rewrite <- Ht in H.

Lemma band_spec n g :
  unit_tape (tape g) ->
  exists v d c g', band n g = (v, d, c, g')
                   /\ in_band n v d /\ unit_tape (tape g').
Proof.
  intros Ht. unfold band, in_band.
  destruct (4 <=? n) eqn:E4; [|destruct (n =? 3) eqn:E3]; unfold bind, ret.
  - apply Nat.leb_le in E4.
    draw_int 100%Z 2000%Z g Ht. draw_int 15%Z 45%Z g0 Ht.
    draw_float 0.50 3.50 g1 Ht.
    do 4 eexists. split; [reflexivity|]. split; [|exact Ht].
    repeat split; intros; lia.
  - apply Nat.leb_gt in E4. apply Nat.eqb_eq in E3.
    draw_int 1000%Z 8000%Z g Ht. draw_int 35%Z 65%Z g0 Ht.
    draw_float 1.50 6.00 g1 Ht.
    do 4 eexists. split; [reflexivity|]. split; [|exact Ht].
    repeat split; intros; lia.
  - apply Nat.leb_gt in E4. apply Nat.eqb_neq in E3.
    draw_int 5000%Z 50000%Z g Ht. draw_int 60%Z 95%Z g0 Ht.
    draw_float 3.00 15.00 g1 Ht.
    do 4 eexists. split; [reflexivity|]. split; [|exact Ht].
    repeat split; intros; lia.
Qed.

(** The fields of the record in terms of the two stages that decide
    them. *)
Lemma generate_mock_seo_data_fields kw g v d c g1 c' v' g2 :
  band (List.length (split kw)) g = (v, d, c, g1) ->
  adjust (lower kw) c v g1 = (c', v', g2) ->
  let data := fst (generate_mock_seo_data kw g) in
  search_volume data = v'
  /\ keyword_difficulty data = d
  /\ avg_cpc data = PyNum.round2 c'
  /\ competition_level data = get_competition_level d.
Proof.
  intros Eb Ea. unfold generate_mock_seo_data, bind. rewrite Eb, Ea.
  destruct (generate_related_keywords kw g2) as [rk g3].
  destruct (top_pages_of kw [1; 2; 3; 4; 5]%nat g3) as [tp g4].
  destruct (generate_search_trends g4) as [tr g5].
  destruct (uniform 0.8 1.2 g5) as [bid g6].
  simpl. repeat split.
Qed.

Lemma constant_tape_unit u : 0 <= u -> u < 1 -> unit_tape (tape (constant_tape u)).
Proof. intros H0 H1 n. split; assumption. Qed.

Lemma int_nonneg x : 0 <= x -> PyNum.int x = Qfloor x.
Proof.
  intros H. unfold PyNum.int.
  destruct (Qle_bool 0 x) eqn:E; [reflexivity|].
  apply Qle_bool_iff in H. congruence.
Qed.

(** C6: the competition level is decided by the difficulty score alone:
    below 30 it is Low, from 30 and below 60 it is Medium, from 60 on it
    is High; so at 29, 30, 59 and 60; and the record of the generator
    carries the level of its own difficulty score. *)
Theorem competition_level_of_difficulty :
  (forall d, (d < 30)%Z -> get_competition_level d = lit "Low")
  /\ (forall d, (30 <= d < 60)%Z -> get_competition_level d = lit "Medium")
  /\ (forall d, (60 <= d)%Z -> get_competition_level d = lit "High")
  /\ get_competition_level 29 = lit "Low"
  /\ get_competition_level 30 = lit "Medium"
  /\ get_competition_level 59 = lit "Medium"
  /\ get_competition_level 60 = lit "High"
  /\ (forall kw g,
        let data := fst (generate_mock_seo_data kw g) in
        competition_level data = get_competition_level (keyword_difficulty data)).
Proof.
  repeat split; try reflexivity.
  - intros d Hd. unfold get_competition_level.
    destruct (Z.ltb_spec d 30); [reflexivity | lia].
  - intros d Hd. unfold get_competition_level.
    destruct (Z.ltb_spec d 30); [lia|].
    destruct (Z.ltb_spec d 60); [reflexivity | lia].
  - intros d Hd. unfold get_competition_level.
    destruct (Z.ltb_spec d 30); [lia|].
    destruct (Z.ltb_spec d 60); [lia | reflexivity].
  - intros kw g data. subst data.
    destruct (band (List.length (split kw)) g) as [[[v d] c] g1] eqn:Eb.
    destruct (adjust (lower kw) c v g1) as [[c' v'] g2] eqn:Ea.
    destruct (generate_mock_seo_data_fields kw g _ _ _ _ _ _ _ Eb Ea) as (_ & Hd & _ & Hc).
    rewrite Hc, Hd. reflexivity.
Qed.

Lemma competition_level_of_difficulty_witness :
  get_competition_level 12 = lit "Low"
  /\ get_competition_level 42 = lit "Medium"
  /\ get_competition_level 77 = lit "High".
Proof.
  destruct competition_level_of_difficulty as (Hl & Hm & Hh & _).
  split; [apply Hl; lia | split; [apply Hm; lia | apply Hh; lia]].
Defined.








End SeoFacts.

(** ** Words and reading time *)

Module ReadingFacts.
Import PyStr AiGenerator Notions.



(** Rounding a number of 225ths: there is no tie, 225 being odd. *)
Lemma round_225 w :
  (0 <= w)%Z -> PyNum.round (w # 225) = ((w + 112) / 225)%Z.
Proof.
  intros Hw. unfold PyNum.round.
  assert (Hf : Qfloor (w # 225) = (w / 225)%Z) by reflexivity.
  rewrite Hf.
  pose proof (Z.div_mod w 225 ltac:(lia)) as Hdm.
  pose proof (Z.mod_pos_bound w 225 ltac:(lia)) as Hm.
  set (k := (w / 225)%Z) in *. set (r := (w mod 225)%Z) in *.
  assert (Hc : ((w # 225) - inject_Z k ?= 1 # 2) = (2 * r ?= 225)%Z).
  { unfold Qcompare, Qminus, Qplus, Qopp, inject_Z. cbn [Qnum Qden].
    rewrite !Pos.mul_1_r. rewrite Hdm.
    destruct (Z.compare_spec (2 * r) 225);
      [apply Z.compare_eq_iff | apply Z.compare_lt_iff | apply Z.compare_gt_iff];
      lia. }
  rewrite Hc.
  destruct (Z.compare_spec (2 * r) 225) as [E|L|G]; cbv iota.
  - lia.
  - apply Z.div_unique with (r + 112)%Z; lia.
  - apply Z.div_unique with (r - 113)%Z; lia.
Qed.



End ReadingFacts.

(** ** The fallback post *)

Module FallbackFacts.
Import PyStr AiGenerator Notions.

Lemma generate_blog_post_no_key env kw seo :
  no_key env = true ->
  generate_blog_post env kw seo
  = Returned (generate_fallback_content (month_year env) kw seo).
Proof. intros H. unfold generate_blog_post. rewrite H. reflexivity. Qed.

Lemma generate_blog_post_raised env kw seo e :
  chat_completion env system_message (create_blog_post_prompt kw seo) = Raised e ->
  generate_blog_post env kw seo
  = Returned (generate_fallback_content (month_year env) kw seo).
Proof.
  intros H. unfold generate_blog_post.
  destruct (no_key env); [reflexivity|].
  rewrite H. reflexivity.
Qed.

Lemma generate_blog_post_returns env kw seo :
  exists post, generate_blog_post env kw seo = Returned post.
Proof.
  unfold generate_blog_post.
  destruct (no_key env); [eexists; reflexivity|].
  destruct (chat_completion env system_message (create_blog_post_prompt kw seo));
    eexists; reflexivity.
Qed.

(** C4: [generate_blog_post] always returns a post; without a key, or
    when the completion call raises, the post is the fallback post; for
    the keyword desk lamp and no key its title contains Desk Lamp, and its
    content the links of product1, product2 and product3 and the FAQ
    block. *)
Theorem fallback_post :
  (forall env kw seo, exists post, generate_blog_post env kw seo = Returned post)
  /\ (forall env kw seo,
        no_key env = true
        \/ (exists e, chat_completion env system_message
                        (create_blog_post_prompt kw seo) = Raised e) ->
        generate_blog_post env kw seo
        = Returned (generate_fallback_content (month_year env) kw seo))
  /\ (forall env seo,
        no_key env = true ->
        exists post,
          generate_blog_post env (lit "desk lamp") seo = Returned post
          /\ contains (lit "Desk Lamp") (title post) = true
          /\ contains (product_link "1") (content post) = true
          /\ contains (product_link "2") (content post) = true
          /\ contains (product_link "3") (content post) = true
          /\ contains (lit "<div class=" ++ q "faq" ++ lit ">") (content post) = true).
Proof.
  split; [exact generate_blog_post_returns|]. split.
  - intros env kw seo [H|[e H]].
    + now apply generate_blog_post_no_key.
    + now apply generate_blog_post_raised with e.
  - intros env seo H. eexists. split.
    + now apply generate_blog_post_no_key.
    + cbn [title content generate_fallback_content].
      generalize (month_year env). intros my.
      repeat split; vm_compute; reflexivity.
Qed.

Lemma fallback_post_witness :
  generate_blog_post no_credential (lit "desk lamp") empty_seo
  = Returned (generate_fallback_content (lit "November 2026") (lit "desk lamp") empty_seo).
Proof.
  apply (proj1 (proj2 fallback_post) no_credential (lit "desk lamp") empty_seo).
  left. reflexivity.
Defined.

End FallbackFacts.

(** ** The document structure kept by [process_blog_content] *)

Module ShellFacts.
Import PyStr AiGenerator Notions.

Lemma ends_solid_tail a p : ends_solid (a :: p) = true -> ends_solid p = true.
Proof. destruct p; [reflexivity | exact (fun H => H)]. Qed.

Lemma rstrip_nil x : rstrip x = [] -> forallb is_space x = true.
Proof.
  induction x as [|c t IH]; [reflexivity|].
  cbn [rstrip forallb]. destruct (rstrip t) eqn:Er.
  - destruct (is_space c); [intros _; now rewrite IH | discriminate].
  - discriminate.
Qed.

Lemma startswith_spaces p x :
  forallb is_space x = true -> ends_solid p = true -> p <> [] ->
  startswith p x = false.
Proof.
  revert x. induction p as [|a p IH]; intros x Hx Hp Hn; [congruence|].
  destruct x as [|c t]; [reflexivity|].
  cbn [forallb] in Hx. apply andb_true_iff in Hx. destruct Hx as [Hc Ht].
  cbn [startswith]. destruct p as [|b p].
  - cbn [ends_solid] in Hp. destruct (Ascii.eqb_spec a c) as [->|]; [|reflexivity].
    rewrite Hc in Hp. discriminate.
  - rewrite (IH t Ht Hp ltac:(discriminate)). apply andb_false_r.
Qed.

Lemma startswith_rstrip p x :
  ends_solid p = true -> startswith p (rstrip x) = startswith p x.
Proof.
  revert p. induction x as [|c t IH]; intros p Hp; [reflexivity|].
  destruct p as [|a p]; [reflexivity|].
  pose proof (ends_solid_tail a p Hp) as Hp'.
  cbn [rstrip]. destruct (rstrip t) as [|r0 r] eqn:Er.
  - pose proof (rstrip_nil t Er) as Ht.
    destruct (is_space c) eqn:Ec.
    + symmetry. apply startswith_spaces; [|assumption|discriminate].
      cbn [forallb]. now rewrite Ec, Ht.
    + cbn [startswith]. destruct p as [|b p]; [reflexivity|].
      rewrite (startswith_spaces (b :: p) t Ht Hp' ltac:(discriminate)).
      reflexivity.
  - cbn [startswith]. now rewrite (IH p Hp').
Qed.

Lemma startswith_strip p x :
  ends_solid p = true -> startswith p (strip x) = startswith p (lstrip x).
Proof. intros Hp. unfold strip. now apply startswith_rstrip. Qed.

Lemma startswith_disagree p new x :
  agree p new = false -> startswith p (new ++ x) = false.
Proof.
  revert new. induction p as [|a p IH]; intros new H; [discriminate|].
  destruct new as [|y new]; [discriminate|].
  cbn [agree] in H. cbn [app startswith].
  destruct (Ascii.eqb a y); [|reflexivity].
  cbn [andb] in *. now apply IH.
Qed.

Lemma startswith_head old c t :
  startswith old (c :: t) = true -> forall a, other_head a old = true -> Ascii.eqb a c = false.
Proof.
  destruct old as [|o old]; intros H a Ha; [discriminate|].
  cbn [startswith] in H. apply andb_true_iff in H. destruct H as [H _].
  apply Ascii.eqb_eq in H. subst c. cbn [other_head] in Ha.
  now apply negb_true_iff in Ha.
Qed.

Lemma startswith_replace old new p s :
  safe old new p = true ->
  startswith p (replace_go old new 0 s) = startswith p s.
Proof.
  revert p. induction s as [|c t IH]; intros p Hp; [reflexivity|].
  destruct p as [|a p]; [reflexivity|].
  cbn [safe] in Hp. apply andb_true_iff in Hp. destruct Hp as [Hp Hs].
  apply andb_true_iff in Hp. destruct Hp as [Hh Ha].
  apply negb_true_iff in Ha.
  cbn [replace_go]. destruct (startswith old (c :: t)) eqn:Eo.
  - rewrite (startswith_disagree _ _ _ Ha). cbn [startswith].
    now rewrite (startswith_head _ _ _ Eo a Hh).
  - cbn [startswith]. now rewrite (IH p Hs).
Qed.

Lemma lstrip_replace old new p s :
  link_ok p (old, new) = true ->
  startswith p (lstrip (replace old new s)) = startswith p (lstrip s).
Proof.
  unfold link_ok, replace. cbn [fst snd]. intros H.
  apply andb_true_iff in H. destruct H as [H Hn].
  apply andb_true_iff in H. destruct H as [Hs Ho].
  induction s as [|c t IH]; [reflexivity|].
  destruct (is_space c) eqn:Ec.
  - assert (Eo : startswith old (c :: t) = false).
    { destruct old as [|o old]; [discriminate|]. cbn [startswith].
      destruct (Ascii.eqb_spec o c) as [->|]; [|reflexivity].
      cbn [solid_head] in Ho. rewrite Ec in Ho. discriminate. }
    cbn [replace_go]. rewrite Eo. cbn [lstrip]. rewrite Ec. exact IH.
  - assert (El : lstrip (replace_go old new 0 (c :: t)) = replace_go old new 0 (c :: t)).
    { cbn [replace_go]. destruct (startswith old (c :: t)).
      - destruct new as [|n0 new]; [discriminate|].
        cbn [solid_head] in Hn. apply negb_true_iff in Hn.
        cbn [app lstrip]. now rewrite Hn.
      - cbn [lstrip]. now rewrite Ec. }
    rewrite El. cbn [lstrip]. rewrite Ec. now apply startswith_replace.
Qed.

Lemma lstrip_replace_all p links :
  forallb (link_ok p) links = true ->
  forall s,
    startswith p (lstrip (fold_left (fun c pl => replace (fst pl) (snd pl) c) links s))
    = startswith p (lstrip s).
Proof.
  induction links as [|[old new] links IH]; intros H s; [reflexivity|].
  cbn [forallb] in H. apply andb_true_iff in H. destruct H as [H1 H2].
  cbn [fold_left fst snd]. rewrite (IH H2). now apply lstrip_replace.
Qed.

(** Whether a text starts with the DOCTYPE declaration, white space
    apart, is not changed by the replacement of the placeholders. *)
Lemma replace_links_doctype s :
  startswith doctype (strip (replace_links s)) = startswith doctype (strip s).
Proof.
  rewrite !startswith_strip by reflexivity.
  unfold replace_links. now apply lstrip_replace_all.
Qed.

Lemma replace_absent old new s :
  contains old s = false -> replace_go old new 0 s = s.
Proof.
  induction s as [|c t IH]; [reflexivity|].
  cbn [contains]. intros H. apply orb_false_iff in H. destruct H as [H1 H2].
  cbn [replace_go]. rewrite H1. now rewrite (IH H2).
Qed.

Lemma replace_links_absent s :
  forallb (fun pl => negb (contains (fst pl) s)) affiliate_links = true ->
  replace_links s = s.
Proof.
  unfold replace_links. generalize affiliate_links as links.
  induction links as [|[old new] links IH]; intros H; [reflexivity|].
  cbn [forallb fst] in H. apply andb_true_iff in H. destruct H as [H1 H2].
  apply negb_true_iff in H1.
  cbn [fold_left fst snd]. unfold replace at 2. rewrite (replace_absent _ _ _ H1).
  now apply IH.
Qed.

Lemma html_shell_doctype title content :
  startswith doctype (lstrip (html_shell title content)) = true.
Proof. reflexivity. Qed.

(** A document that starts with the declaration and holds a placeholder
    is not returned as it was given: the placeholder is replaced. *)
Lemma process_blog_content_changes_doctype_content :
  startswith doctype
    (strip (lit "<!DOCTYPE html><p><a href={{AFF_LINK_1}}>Lamp</a></p>")) = true
  /\ process_blog_content
       (lit "<!DOCTYPE html><p><a href={{AFF_LINK_1}}>Lamp</a></p>") (lit "desk lamp")
     = lit "<!DOCTYPE html><p><a href=https://amazon.com/affiliate/product1?tag=yourtag>Lamp</a></p>"
  /\ process_blog_content
       (lit "<!DOCTYPE html><p><a href={{AFF_LINK_1}}>Lamp</a></p>") (lit "desk lamp")
     <> lit "<!DOCTYPE html><p><a href={{AFF_LINK_1}}>Lamp</a></p>".
Proof.
  split; [reflexivity|]. split; [reflexivity|].
  vm_compute. intro H. discriminate H.
Qed.

(** C10, as the code has it: the output of [process_blog_content], leading
    white space apart, starts with the DOCTYPE declaration.  A content
    that starts with it, white space apart, is returned with its
    affiliate placeholders replaced by their links and nothing else
    changed, so as it was given when it holds no placeholder; any other
    content is wrapped, placeholders replaced, in the HTML shell. *)
Theorem process_blog_content_doctype content kw :
  startswith doctype (lstrip (process_blog_content content kw)) = true
  /\ (startswith doctype (strip content) = true ->
      process_blog_content content kw = replace_links content
      /\ (forallb (fun pl => negb (contains (fst pl) content)) affiliate_links = true ->
          process_blog_content content kw = content))
  /\ (startswith doctype (strip content) = false ->
      exists title,
        process_blog_content content kw = html_shell title (replace_links content)).
Proof.
  unfold process_blog_content. fold doctype.
  rewrite replace_links_doctype.
  destruct (startswith doctype (strip content)) eqn:E; cbn [negb].
  - split; [|split; [|discriminate]].
    + rewrite <- replace_links_doctype, startswith_strip in E by reflexivity.
      exact E.
    + intros _. split; [reflexivity|]. intros H. now apply replace_links_absent.
  - split; [apply html_shell_doctype|]. split; [discriminate|].
    intros _. eexists. reflexivity.
Qed.

Lemma process_blog_content_doctype_witness :
  process_blog_content (lit " <!DOCTYPE html><p>Lamp</p>") (lit "desk lamp")
  = lit " <!DOCTYPE html><p>Lamp</p>"
  /\ exists title,
       process_blog_content (lit "<p>{{AFF_LINK_2}}</p>") (lit "desk lamp")
       = html_shell title (replace_links (lit "<p>{{AFF_LINK_2}}</p>")).
Proof.
  split.
  - apply (process_blog_content_doctype
             (lit " <!DOCTYPE html><p>Lamp</p>") (lit "desk lamp"));
      reflexivity.
  - apply (process_blog_content_doctype (lit "<p>{{AFF_LINK_2}}</p>") (lit "desk lamp")).
    reflexivity.
Defined.

End ShellFacts.

(** ** Title extraction *)

Module TitleFacts.
Import PyStr AiGenerator Notions.











End TitleFacts.

(** ** The meta description *)

Module MetaFacts.
Import PyStr AiGenerator Notions.

Lemma before_last_split sep s r :
  before_last sep s = Some r ->
  exists rest, s = r ++ sep :: rest /\ before_last sep rest = None.
Proof.
  revert r. induction s as [|c t IH]; intros r H; [discriminate|].
  cbn [before_last] in H. destruct (before_last sep t) as [r'|] eqn:E.
  - injection H as <-. destruct (IH r' eq_refl) as (rest & -> & Hr).
    exists rest. split; [reflexivity | exact Hr].
  - destruct (Ascii.eqb_spec c sep) as [->|]; [|discriminate].
    injection H as <-. exists t. split; [reflexivity | exact E].
Qed.

Lemma rsplit1_head_length sep s :
  (List.length (rsplit1_head sep s) <= List.length s)%nat.
Proof.
  unfold rsplit1_head. destruct (before_last sep s) as [r|] eqn:E; [|lia].
  destruct (before_last_split sep s r E) as (rest & -> & _).
  rewrite length_app. lia.
Qed.

(** A paragraph of at most 155 characters is the description. *)
Lemma truncate_description_short p :
  (List.length p <= 155)%nat -> truncate_description p = p.
Proof.
  intros H. unfold truncate_description, slice_to.
  destruct (Nat.ltb_spec 155 (List.length p)); [lia|].
  now apply firstn_all2.
Qed.

(** A longer one is cut before the last space of its first 155
    characters, and three dots are added: up to 158 characters. *)
Lemma truncate_description_long p :
  (155 < List.length p)%nat ->
  truncate_description p = rsplit1_head SP (firstn 155 p) ++ lit "..."
  /\ (List.length (truncate_description p) <= 158)%nat.
Proof.
  intros H. unfold truncate_description, slice_to.
  destruct (Nat.ltb_spec 155 (List.length p)); [|lia].
  split; [reflexivity|].
  rewrite length_app.
  pose proof (rsplit1_head_length SP (firstn 155 p)) as Hl.
  rewrite length_firstn in Hl. cbn [lit list_ascii_of_string List.length]. lia.
Qed.

Lemma generic_description_length kw :
  List.length (generic_description kw) = (125 + List.length kw)%nat.
Proof.
  unfold generic_description. rewrite !length_app.
  cbn [lit list_ascii_of_string List.length]. lia.
Qed.

(** C1 fails on the code: for a paragraph of 160 characters that holds
    the keyword, the description is the first 154 characters and three
    dots, 157 characters; and the generic sentence for a keyword of 31
    characters has 156. *)
Theorem meta_description_over_155 :
  List.length paragraph_160 = 160%nat
  /\ generate_meta_description (lit "desk lamp")
       (lit "<p>" ++ paragraph_160 ++ lit "</p>")
     = lit "A good desk lamp gives even light across the whole work surface, keeps glare off the screen and lets you set the brightness and the colour of the light as..."
  /\ List.length
       (generate_meta_description (lit "desk lamp")
          (lit "<p>" ++ paragraph_160 ++ lit "</p>")) = 157%nat
  /\ List.length
       (generate_meta_description (repeat "x"%char 31) []) = 156%nat.
Proof. repeat split; vm_compute; reflexivity. Qed.

End MetaFacts.

(** ** Artifact cleanup *)

Module CleanFacts.
Import PyStr AiGenerator Notions.

(** *** Matchers consume a prefix *)

Lemma suffix_refl s : suffix_of s s.
Proof. now exists []. Qed.

Lemma suffix_trans a b c : suffix_of a b -> suffix_of b c -> suffix_of a c.
Proof. intros [p ->] [q ->]. exists (q ++ p). now rewrite app_assoc. Qed.

Lemma suffix_cons c s : suffix_of s (c :: s).
Proof. now exists [c]. Qed.

Lemma suffix_length rest s :
  suffix_of rest s -> (List.length rest <= List.length s)%nat.
Proof. intros [p ->]. rewrite length_app. lia. Qed.

Lemma suffix_skipn rest s :
  suffix_of rest s -> skipn (List.length s - List.length rest) s = rest.
Proof.
  intros [p ->]. rewrite length_app.
  replace (List.length p + List.length rest - List.length rest)%nat
    with (List.length p) by lia.
  rewrite skipn_app, skipn_all, Nat.sub_diag. reflexivity.
Qed.

Lemma startswith_split p s : startswith p s = true -> s = p ++ skipn (List.length p) s.
Proof.
  revert s. induction p as [|a p IH]; intros s H; [reflexivity|].
  destruct s as [|c s]; [discriminate|].
  cbn [startswith] in H. apply andb_true_iff in H. destruct H as [H1 H2].
  apply Ascii.eqb_eq in H1. subst c. cbn [List.length skipn app].
  now rewrite <- (IH s H2).
Qed.

Lemma exact_split p s rest : Re.exact p s = Some rest -> s = p ++ rest.
Proof.
  unfold Re.exact. destruct (startswith p s) eqn:E; [|discriminate].
  intros H. injection H as <-. now apply startswith_split.
Qed.

Lemma exact_consumes p : consumes (Re.exact p).
Proof. intros s rest H. exists p. now apply exact_split. Qed.

Lemma many_suffix cls s : suffix_of (Re.many cls s) s.
Proof.
  induction s as [|c t IH]; [apply suffix_refl|].
  cbn [Re.many]. destruct (cls c); [|apply suffix_refl].
  apply suffix_trans with t; [exact IH | apply suffix_cons].
Qed.

Lemma star_consumes cls : consumes (Re.star cls).
Proof. intros s rest H. injection H as <-. apply many_suffix. Qed.

Lemma at_end_consumes : consumes Re.at_end.
Proof. intros [|c t] rest H; [|discriminate]. injection H as <-. apply suffix_refl. Qed.

Lemma first_match_suffix (m : Re.matcher) s g rest :
  consumes m -> Re.first_match m s = Some (g, rest) -> suffix_of rest s.
Proof.
  intros Hm. revert g. induction s as [|c t IH]; intros g H.
  - cbn [Re.first_match] in H. destruct (m []) as [r|] eqn:E; [|discriminate].
    injection H as _ <-. now apply Hm.
  - cbn [Re.first_match] in H. destruct (m (c :: t)) as [r|] eqn:E.
    + injection H as _ <-. now apply Hm.
    + destruct (Re.first_match m t) as [[g' r]|] eqn:Ef; [|discriminate].
      injection H as _ <-. apply suffix_trans with t; [|apply suffix_cons].
      now apply (IH g').
Qed.

(** The steps of a matcher written with [>>=]. *)
Ltac unbind H :=
  match type of H with
  | Re.bind_opt ?x ?f = Some ?r =>
      let E := fresh "E" in
      let mid := fresh "mid" in
      destruct x as [mid|] eqn:E;
      [cbn [Re.bind_opt] in H; unbind E | discriminate H]
  | _ => idtac
  end.

Ltac step_suffix :=
  match goal with
  | H : Re.exact _ _ = Some _ |- _ => apply exact_consumes in H
  | H : Re.star _ _ = Some _ |- _ => apply star_consumes in H
  | H : Re.at_end _ = Some _ |- _ => apply at_end_consumes in H
  end.

Ltac chain_suffix :=
  repeat match goal with
         | H : suffix_of ?a ?b |- suffix_of ?a ?c =>
             apply suffix_trans with b; [exact H | clear H]
         end;
  try apply suffix_refl.

(** A matcher that starts with a literal leaves less than it was given. *)
Lemma literal_first_strict p s mid rest :
  p <> [] -> Re.exact p s = Some mid -> suffix_of rest mid ->
  suffix_of rest s /\ (List.length rest < List.length s)%nat.
Proof.
  intros Hp E Hs. apply exact_split in E. subst s. split.
  - apply suffix_trans with mid; [exact Hs | now exists p].
  - apply suffix_length in Hs. rewrite length_app.
    destruct p; [congruence|]. cbn [List.length]. lia.
Qed.

Lemma fence_strict : strict Re.fence.
Proof.
  intros s rest H. unfold Re.fence in H. unbind H.
  apply (literal_first_strict (lit "```") s mid rest); [discriminate | exact E |].
  now apply star_consumes in H.
Qed.

Lemma closing_tags_strict : strict Re.closing_tags.
Proof.
  intros s rest H. unfold Re.closing_tags in H. unbind H.
  apply (literal_first_strict (lit "</body>") s mid2 rest);
    [discriminate | exact E2 | clear E2].
  repeat step_suffix. chain_suffix.
Qed.

Lemma body_doctype_consumes : consumes Re.body_doctype.
Proof.
  intros s rest H. unfold Re.body_doctype in H. unbind H.
  repeat step_suffix. chain_suffix.
Qed.

Lemma head_close_consumes :
  consumes (fun r => Re.bind_opt (Re.exact (lit "</head>") r) Re.body_doctype).
Proof.
  intros s rest H. unbind H. apply body_doctype_consumes in H.
  repeat step_suffix. chain_suffix.
Qed.

Lemma duplicate_preamble_strict : strict Re.duplicate_preamble.
Proof.
  intros s rest H. unfold Re.duplicate_preamble in H. unbind H.
  injection H as <-. destruct mid as [g rest].
  apply (first_match_suffix _ _ _ _ head_close_consumes) in E. cbn [snd].
  apply (literal_first_strict (lit "<!DOCTYPE html>") s mid6 rest);
    [discriminate | exact E6 | clear E6].
  repeat step_suffix. chain_suffix.
Qed.

(** *** One step of [re.sub] *)

Lemma sub_go_skipn m r k s : Re.sub_go m r k s = Re.sub_go m r 0 (skipn k s).
Proof.
  revert k. induction s as [|c t IH]; intros k.
  - destruct k; reflexivity.
  - destruct k as [|k]; [reflexivity|]. cbn [Re.sub_go skipn]. apply IH.
Qed.

Lemma sub_step m r s :
  strict m ->
  Re.sub m r s
  = match m s with
    | Some rest => r ++ Re.sub m r rest
    | None =>
        match s with
        | [] => []
        | c :: t => c :: Re.sub m r t
        end
    end.
Proof.
  intros Hm. unfold Re.sub. destruct s as [|c t].
  - destruct (m []) as [rest|] eqn:E; [|reflexivity].
    destruct (Hm _ _ E) as [_ Hl]. cbn [List.length] in Hl. lia.
  - cbn [Re.sub_go]. destruct (m (c :: t)) as [rest|] eqn:E; [|reflexivity].
    destruct (Hm _ _ E) as [Hs Hl]. f_equal.
    rewrite sub_go_skipn. f_equal.
    pose proof (suffix_skipn rest (c :: t) Hs) as Hk.
    cbn [List.length] in Hl, Hk |- *.
    replace (S (List.length t) - List.length rest)%nat
      with (S (List.length t - List.length rest)) in Hk by lia.
    cbn [skipn] in Hk.
    replace (S (List.length t) - List.length rest - 1)%nat
      with (List.length t - List.length rest)%nat by lia.
    exact Hk.
Qed.

(** *** No code fence is left *)

Lemma contains_cons p c s :
  contains p (c :: s) = startswith p (c :: s) || contains p s.
Proof. reflexivity. Qed.

Lemma contains_suffix p rest s :
  suffix_of rest s -> contains p s = false -> contains p rest = false.
Proof.
  intros [pre ->]. induction pre as [|c pre IH]; [exact (fun H => H)|].
  intros H. change ((c :: pre) ++ rest) with (c :: (pre ++ rest)) in H.
  rewrite contains_cons in H. apply orb_false_iff in H. now apply IH.
Qed.

Lemma contains_startswith p s : contains p s = false -> startswith p s = false.
Proof.
  destruct s; cbn [contains]; intros H; apply orb_false_iff in H; tauto.
Qed.

Section SubKeepsFenceFree.

Variable m : Re.matcher.
Variable r : str.
Hypothesis m_strict : strict m.
Hypothesis r_plain : forall x, contains fence_mark (r ++ x) = contains fence_mark x.
Hypothesis r_head :
  forall s rest k,
    m s = Some rest -> (1 <= k <= 2)%nat ->
    startswith (ticks k) (r ++ Re.sub m r rest) = true ->
    startswith (ticks k) s = true.

(** A run of backticks at the head of the output was at the head of the
    input. *)
Lemma sub_head s k :
  (1 <= k <= 2)%nat ->
  startswith (ticks k) (Re.sub m r s) = true -> startswith (ticks k) s = true.
Proof.
  revert k. induction s as [|c t IH]; intros k Hk; rewrite (sub_step m r _ m_strict).
  - destruct (m []) as [rest|] eqn:E; [now apply r_head|].
    destruct k as [|[|k]]; try lia; discriminate.
  - destruct (m (c :: t)) as [rest|] eqn:E; [now apply r_head|].
    destruct k as [|[|[|k]]]; try lia.
    + exact (fun H => H).
    + cbn [ticks repeat startswith]. intros H.
      apply andb_true_iff in H. destruct H as [H1 H2]. rewrite H1.
      apply (IH 1%nat ltac:(lia)) in H2. exact H2.
Qed.

Lemma sub_fence_free_aux n :
  forall s,
    (List.length s <= n)%nat ->
    (forall s', suffix_of s' s -> m s' = None -> startswith fence_mark s' = false) ->
    contains fence_mark (Re.sub m r s) = false.
Proof.
  induction n as [|n IH]; intros s Hn Hs; rewrite (sub_step m r _ m_strict).
  - destruct s; [|cbn [List.length] in Hn; lia].
    destruct (m []) as [rest|] eqn:E; [|reflexivity].
    destruct (m_strict _ _ E) as [_ Hl]. cbn [List.length] in Hl. lia.
  - destruct (m s) as [rest|] eqn:E.
    + destruct (m_strict _ _ E) as [Hsuf Hl]. rewrite r_plain.
      apply IH; [lia|]. intros s' Hs'. apply Hs. now apply suffix_trans with rest.
    + destruct s as [|c t]; [reflexivity|].
      rewrite contains_cons.
      assert (Ht : contains fence_mark (Re.sub m r t) = false).
      { apply IH; [cbn [List.length] in Hn; lia|].
        intros s' Hs'. apply Hs. apply suffix_trans with t; [exact Hs' | apply suffix_cons]. }
      rewrite Ht, orb_false_r.
      destruct (startswith fence_mark (c :: Re.sub m r t)) eqn:Ef; [|reflexivity].
      exfalso.
      pose proof (Hs (c :: t) (suffix_refl _) E) as Hno.
      change fence_mark with ("`"%char :: ticks 2) in Ef, Hno.
      cbn [startswith] in Ef, Hno.
      apply andb_true_iff in Ef. destruct Ef as [E1 E2].
      apply (sub_head t 2 ltac:(lia)) in E2.
      rewrite E1, E2 in Hno. discriminate.
Qed.

Lemma sub_fence_free s :
  (forall s', suffix_of s' s -> m s' = None -> startswith fence_mark s' = false) ->
  contains fence_mark (Re.sub m r s) = false.
Proof. apply (sub_fence_free_aux (List.length s)). lia. Qed.

End SubKeepsFenceFree.

Lemma ticks_of_fence s k :
  (1 <= k <= 2)%nat -> startswith fence_mark s = true -> startswith (ticks k) s = true.
Proof.
  intros Hk H. apply startswith_split in H. rewrite H.
  destruct k as [|[|[|k]]]; try lia; reflexivity.
Qed.

(** After the second substitution no fence is left, whatever the text. *)
Lemma fence_removed s : contains fence_mark (Re.sub Re.fence [] s) = false.
Proof.
  apply sub_fence_free.
  - exact fence_strict.
  - reflexivity.
  - intros s0 rest k H Hk _. apply ticks_of_fence; [exact Hk|].
    unfold Re.fence, Re.exact in H. fold fence_mark in H.
    destruct (startswith fence_mark s0); [reflexivity | discriminate].
  - intros s' _ H. unfold Re.fence, Re.exact in H. fold fence_mark in H.
    destruct (startswith fence_mark s'); [discriminate | reflexivity].
Qed.

(** The two later substitutions bring none back. *)
Lemma duplicate_preamble_keeps s :
  contains fence_mark s = false ->
  contains fence_mark (Re.sub Re.duplicate_preamble (lit "<!DOCTYPE html>") s) = false.
Proof.
  intros Hs. apply sub_fence_free.
  - exact duplicate_preamble_strict.
  - reflexivity.
  - intros s0 rest k _ Hk H. destruct k as [|[|[|k]]]; try lia; discriminate.
  - intros s' Hs' _. apply contains_startswith. now apply contains_suffix with s.
Qed.

Lemma closing_tags_rest s rest : Re.closing_tags s = Some rest -> rest = [].
Proof.
  intros H. unfold Re.closing_tags in H. unbind H.
  destruct mid as [|c t]; [|discriminate]. now injection H as <-.
Qed.

Lemma closing_tags_keeps s :
  contains fence_mark s = false ->
  contains fence_mark (Re.sub Re.closing_tags [] s) = false.
Proof.
  intros Hs. apply sub_fence_free.
  - exact closing_tags_strict.
  - reflexivity.
  - intros s0 rest k E Hk H. apply closing_tags_rest in E. subst rest.
    destruct k as [|[|[|k]]]; try lia; discriminate.
  - intros s' Hs' _. apply contains_startswith. now apply contains_suffix with s.
Qed.

Lemma lstrip_suffix s : suffix_of (lstrip s) s.
Proof.
  induction s as [|c t IH]; [apply suffix_refl|].
  cbn [lstrip]. destruct (is_space c); [|apply suffix_refl].
  apply suffix_trans with t; [exact IH | apply suffix_cons].
Qed.

Lemma rstrip_prefix s : exists w, s = rstrip s ++ w.
Proof.
  induction s as [|c t [w IH]]; [now exists []|].
  cbn [rstrip]. destruct (rstrip t) as [|r0 r].
  - destruct (is_space c); [now exists (c :: t) | now exists t].
  - exists w. cbn [app] in *. now f_equal.
Qed.

Lemma startswith_app p s w : startswith p s = true -> startswith p (s ++ w) = true.
Proof.
  revert s. induction p as [|a p IH]; intros s H; [reflexivity|].
  destruct s as [|c s]; [discriminate|].
  cbn [startswith app] in *. apply andb_true_iff in H. destruct H as [H1 H2].
  now rewrite H1, (IH s H2).
Qed.

Lemma contains_prefix p s w : contains p (s ++ w) = false -> contains p s = false.
Proof.
  induction s as [|c s IH].
  - intros H. apply contains_startswith in H.
    destruct p as [|a p]; [destruct w; discriminate | reflexivity].
  - change ((c :: s) ++ w) with (c :: (s ++ w)). rewrite !contains_cons.
    intros H. apply orb_false_iff in H. destruct H as [H1 H2].
    rewrite (IH H2), orb_false_r.
    destruct (startswith p (c :: s)) eqn:E; [|reflexivity].
    apply (startswith_app _ _ w) in E. cbn [app] in E. congruence.
Qed.

Lemma strip_keeps p s : contains p s = false -> contains p (strip s) = false.
Proof.
  intros H. unfold strip.
  pose proof (contains_suffix p _ _ (lstrip_suffix s) H) as Hl.
  destruct (rstrip_prefix (lstrip s)) as [w Hw].
  rewrite Hw in Hl. now apply contains_prefix with w.
Qed.

(** Whatever the text, no code fence is left in the cleaned text. *)
Lemma clean_markdown_artifacts_fence_free s :
  contains fence_mark (clean_markdown_artifacts s) = false.
Proof.
  unfold clean_markdown_artifacts.
  apply strip_keeps, closing_tags_keeps, duplicate_preamble_keeps, fence_removed.
Qed.

(** C3 fails on the code.  The fences are stripped, whatever the text,
    and of a closing pair written twice one is kept; but the closing pair
    of a document that ends in one pair only is removed too, and the
    document, which starts with the DOCTYPE declaration, is then returned
    without it by [process_blog_content]. *)
Theorem clean_markdown_artifacts_drops_closing_pair :
  (forall s, contains fence_mark (clean_markdown_artifacts s) = false)
  /\ clean_markdown_artifacts (document ++ lit "</body></html>") = document
  /\ clean_markdown_artifacts document
     = lit "<!DOCTYPE html>
<html>
<body>
<h1>Desk Lamp</h1>"
  /\ contains (lit "</body>") (clean_markdown_artifacts document) = false
  /\ contains (lit "</html>") (clean_markdown_artifacts document) = false
  /\ process_blog_content (clean_markdown_artifacts document) (lit "desk lamp")
     = clean_markdown_artifacts document.
Proof.
  split; [exact clean_markdown_artifacts_fence_free|].
  repeat split; vm_compute; reflexivity.
Qed.

End CleanFacts.

(** ** Further properties of the mock SEO generator *)

Module SeoStageFacts.
Import PyStr SeoFetcher RandFacts SeoFacts Notions.

(** Every stage of the generator reads the tape and leaves it as it is. *)
Lemma band_tape n g : tape (snd (band n g)) = tape g.
Proof.
  unfold band. destruct (4 <=? n); [|destruct (n =? 3)]; reflexivity.
Qed.

Lemma adjust_tape kl c v g : tape (snd (adjust kl c v g)) = tape g.
Proof.
  unfold adjust.
  destruct (any_in commercial_keywords kl); [reflexivity|].
  destruct (any_in informational_keywords kl); reflexivity.
Qed.

Lemma bind_tape {A B} (m : Rand A) (f : A -> Rand B) g :
  (forall g0, tape (snd (m g0)) = tape g0) ->
  (forall a g0, tape (snd (f a g0)) = tape g0) ->
  tape (snd (bind m f g)) = tape g.
Proof.
  intros Hm Hf. unfold bind. specialize (Hm g).
  destruct (m g) as [a g']. cbn [snd] in Hm. now rewrite Hf.
Qed.

Lemma sample_go_tape {A} k (pool : list A) g :
  tape (snd (sample_go k pool g)) = tape g.
Proof.
  revert pool g. induction k as [|k IH]; intros pool g; [reflexivity|].
  cbn [sample_go]. apply bind_tape; [intros; apply randbelow_tape|].
  intros j g0.
  destruct (nth_error pool (Z.to_nat j)); [|reflexivity].
  destruct (nth_error pool (List.length pool - 1)); [|reflexivity].
  apply bind_tape; [intros; apply IH | reflexivity].
Qed.

Lemma generate_related_keywords_tape kw g :
  tape (snd (generate_related_keywords kw g)) = tape g.
Proof.
  unfold generate_related_keywords.
  apply bind_tape; [intros; apply sample_go_tape | reflexivity].
Qed.

Lemma top_pages_of_tape kw indices g :
  tape (snd (top_pages_of kw indices g)) = tape g.
Proof.
  revert g. induction indices as [|i rest IH]; intros g; [reflexivity|].
  cbn [top_pages_of].
  apply bind_tape; [intros; apply randint_tape|]. intros picks g0.
  apply bind_tape; [intros; apply randint_tape|]. intros authority g1.
  apply bind_tape; [intros; apply IH | reflexivity].
Qed.

Lemma trends_of_tape base ms g : tape (snd (trends_of base ms g)) = tape g.
Proof.
  revert g. induction ms as [|m rest IH]; intros g; [reflexivity|].
  cbn [trends_of].
  apply bind_tape; [intros; apply randint_tape|]. intros variation g0.
  apply bind_tape; [intros; apply IH | reflexivity].
Qed.

(** The fields of the record that the later stages fill. *)
Lemma generate_mock_seo_data_lists kw g :
  let g1 := snd (band (List.length (split kw)) g) in
  let '(v, _, c) := fst (band (List.length (split kw)) g) in
  let g2 := snd (adjust (lower kw) c v g1) in
  let g3 := snd (generate_related_keywords kw g2) in
  let g4 := snd (top_pages_of kw [1; 2; 3; 4; 5]%nat g3) in
  let data := fst (generate_mock_seo_data kw g) in
  keyword data = kw
  /\ related_keywords data = fst (generate_related_keywords kw g2)
  /\ top_ranking_pages data = fst (top_pages_of kw [1; 2; 3; 4; 5]%nat g3)
  /\ search_trends data = fst (generate_search_trends g4)
  /\ tape g2 = tape g /\ tape g3 = tape g /\ tape g4 = tape g.
Proof.
  pose proof (band_tape (List.length (split kw)) g) as T1.
  destruct (band (List.length (split kw)) g) as [[[v d] c] g1] eqn:Eb.
  cbn [fst snd] in *.
  pose proof (adjust_tape (lower kw) c v g1) as T2.
  pose proof (generate_related_keywords_tape kw (snd (adjust (lower kw) c v g1))) as T3.
  pose proof (top_pages_of_tape kw [1; 2; 3; 4; 5]%nat
                (snd (generate_related_keywords kw (snd (adjust (lower kw) c v g1))))) as T4.
  unfold generate_mock_seo_data, bind. rewrite Eb.
  destruct (adjust (lower kw) c v g1) as [[c' v'] g2]. cbn [snd] in *.
  destruct (generate_related_keywords kw g2) as [rk g3]. cbn [snd] in *.
  destruct (top_pages_of kw [1; 2; 3; 4; 5]%nat g3) as [tp g4]. cbn [snd] in *.
  destruct (generate_search_trends g4) as [tr g5].
  destruct (uniform 0.8 1.2 g5) as [bid g6].
  cbn. repeat split; congruence.
Qed.

End SeoStageFacts.

Module SeoRangeFacts.
Import PyStr SeoFetcher RandFacts SeoFacts SeoStageFacts Notions.

Lemma trends_of_spec base ms g :
  unit_tape (tape g) -> (70 <= base <= 100)%Z ->
  map fst (fst (trends_of base ms g)) = ms
  /\ Forall (fun p => (50 <= snd p <= 130)%Z) (fst (trends_of base ms g)).
Proof.
  intros Ht Hb. revert g Ht. induction ms as [|m rest IH]; intros g Ht.
  - split; [reflexivity | constructor].
  - cbn [trends_of]. unfold bind.
    destruct (randint_spec (-20) 30 g ltac:(lia) Ht) as (r & g' & E & Hr & Ht').
    rewrite E. rewrite <- Ht' in Ht. destruct (IH g' Ht) as [Hk Hv].
    destruct (trends_of base rest g') as [tr g'']. cbn [fst snd ret] in *.
    split; [cbn [map fst]; now rewrite Hk|]. constructor; [cbn [snd]; lia | exact Hv].
Qed.

(** X1: with draws of the unit interval the trend series has the twelve
    months as keys, January to December in this order, and every value
    lies between 50 and 130: the floor of 10 is never reached. *)
Theorem search_trends_range kw g :
  unit_tape (tape g) ->
  let data := fst (generate_mock_seo_data kw g) in
  map fst (search_trends data) = months
  /\ Forall (fun p => (50 <= snd p <= 130)%Z) (search_trends data).
Proof.
  intros Ht data. subst data.
  pose proof (generate_mock_seo_data_lists kw g) as H. cbv zeta in H.
  destruct (fst (band (List.length (split kw)) g)) as [[v d] c].
  destruct H as (_ & _ & _ & -> & _ & _ & T4).
  rewrite <- T4 in Ht. revert Ht.
  generalize (snd (top_pages_of kw [1; 2; 3; 4; 5]%nat
                     (snd (generate_related_keywords kw
                        (snd (adjust (lower kw) c v
                           (snd (band (List.length (split kw)) g)))))))).
  intros g4 Ht. unfold generate_search_trends, bind.
  destruct (randint_spec 70 100 g4 ltac:(lia) Ht) as (b & g' & E & Hb & Ht').
  rewrite E. rewrite <- Ht' in Ht. now apply trends_of_spec.
Qed.

Lemma search_trends_range_witness :
  map fst (search_trends (fst (generate_mock_seo_data (lit "desk lamp") (constant_tape 0.5))))
  = months.
Proof.
  apply (search_trends_range (lit "desk lamp") (constant_tape 0.5)
           (constant_tape_unit 0.5 ltac:(lra) ltac:(lra))).
Defined.

Lemma replace_char_absent (c d : ascii) s k :
  c <> d -> ~ In c (replace_go [c] [d] k s).
Proof.
  intros Hcd. revert k. induction s as [|x t IH]; intros k; [exact (fun H => H)|].
  cbn [replace_go]. destruct k as [|k]; [|apply IH].
  cbn [startswith]. destruct (Ascii.eqb_spec c x) as [->|Hx]; cbn [andb].
  - cbn [app List.length Nat.sub]. intros [H|H]; [congruence | now apply IH in H].
  - intros [H|H]; [congruence | now apply IH in H].
Qed.

Lemma top_pages_of_spec kw indices g :
  unit_tape (tape g) ->
  map url (fst (top_pages_of kw indices g))
  = map (fun i => lit "https://example" ++ str_of_nat i
                    ++ lit ".com/article-about-" ++ replace [SP] (lit "-") kw) indices
  /\ Forall (fun p => (40 <= domain_authority p <= 90)%Z)
       (fst (top_pages_of kw indices g)).
Proof.
  intros Ht. revert g Ht. induction indices as [|i rest IH]; intros g Ht.
  - split; [reflexivity | constructor].
  - cbn [top_pages_of]. unfold bind.
    destruct (randint_spec 5 15 g ltac:(lia) Ht) as (picks & g1 & E1 & _ & T1).
    rewrite E1. rewrite <- T1 in Ht.
    destruct (randint_spec 40 90 g1 ltac:(lia) Ht) as (da & g2 & E2 & Hda & T2).
    rewrite E2. rewrite <- T2 in Ht. destruct (IH g2 Ht) as [Hu Hv].
    destruct (top_pages_of kw rest g2) as [ps g3]. cbn [fst snd ret] in *.
    split; [cbn [map url]; now rewrite Hu|].
    constructor; [cbn [domain_authority]; lia | exact Hv].
Qed.

(** X2: with draws of the unit interval the record lists five top
    ranking pages, each with a domain authority between 40 and 90, and no
    URL of the list holds a space, whatever the keyword. *)
Theorem top_ranking_pages_shape kw g :
  unit_tape (tape g) ->
  let pages := top_ranking_pages (fst (generate_mock_seo_data kw g)) in
  List.length pages = 5%nat
  /\ Forall (fun p => (40 <= domain_authority p <= 90)%Z) pages
  /\ Forall (fun p => ~ In SP (url p)) pages.
Proof.
  intros Ht pages. subst pages.
  pose proof (generate_mock_seo_data_lists kw g) as H. cbv zeta in H.
  destruct (fst (band (List.length (split kw)) g)) as [[v d] c].
  destruct H as (_ & _ & -> & _ & _ & T3 & _).
  rewrite <- T3 in Ht.
  destruct (top_pages_of_spec kw [1; 2; 3; 4; 5]%nat _ Ht) as [Hu Hd].
  split; [|split; [exact Hd|]].
  - rewrite <- (length_map url), Hu. reflexivity.
  - apply (proj1 (Forall_map url (fun u => ~ In SP u) _)). rewrite Hu. cbn [map].
    repeat constructor; intros H;
      repeat (apply in_app_or in H; destruct H as [H|H]);
      try (revert H; apply replace_char_absent; discriminate);
      vm_compute in H; intuition discriminate.
Qed.

Lemma top_ranking_pages_shape_witness :
  List.length
    (top_ranking_pages (fst (generate_mock_seo_data (lit "desk lamp") (constant_tape 0.5))))
  = 5%nat.
Proof.
  apply (top_ranking_pages_shape (lit "desk lamp") (constant_tape 0.5)
           (constant_tape_unit 0.5 ltac:(lra) ltac:(lra))).
Defined.

Lemma int_between lo hi x :
  (0 <= lo)%Z -> inject_Z lo <= x -> x <= inject_Z hi ->
  (lo <= PyNum.int x <= hi)%Z.
Proof.
  intros H0 Hlo Hhi.
  assert (Hx : 0 <= x).
  { apply Qle_trans with (inject_Z lo); [|exact Hlo].
    change 0 with (inject_Z 0). now rewrite <- Zle_Qle. }
  rewrite (int_nonneg x Hx). split.
  - rewrite <- (Qfloor_Z lo). now apply Qfloor_resp_le.
  - rewrite <- (Qfloor_Z hi). now apply Qfloor_resp_le.
Qed.

Lemma in_band_all n v d :
  in_band n v d -> (100 <= v <= 50000)%Z /\ (15 <= d <= 95)%Z.
Proof.
  intros (H4 & H3 & H2).
  destruct (Nat.le_gt_cases 4 n) as [L|L]; [destruct (H4 L); lia|].
  destruct (Nat.eq_dec n 3) as [L3|L3]; [destruct (H3 L3); lia|].
  destruct (H2 ltac:(lia)); lia.
Qed.

(** The volume after the adjustment by keyword type. *)
Lemma adjust_volume kl c v g :
  unit_tape (tape g) -> (100 <= v <= 50000)%Z ->
  (80 <= snd (fst (adjust kl c v g)) <= 90000)%Z.
Proof.
  intros Ht Hv.
  assert (Hq : 100 <= inject_Z v /\ inject_Z v <= 50000).
  { split; [change 100 with (inject_Z 100) | change 50000 with (inject_Z 50000)];
      rewrite <- Zle_Qle; lia. }
  unfold adjust.
  destruct (any_in commercial_keywords kl);
    [|destruct (any_in informational_keywords kl); [|cbn; lia]]; unfold bind.
  - destruct (uniform_spec 1.5 2.5 g ltac:(lra) Ht) as (f & g1 & E1 & _ & T1).
    rewrite E1. rewrite <- T1 in Ht.
    destruct (uniform_spec 0.8 1.2 g1 ltac:(lra) Ht) as (w & g2 & E2 & Hw & _).
    rewrite E2. cbn [ret fst snd].
    apply int_between; [lia | change (inject_Z 80) with 80; nra
                             | change (inject_Z 90000) with 90000; nra].
  - destruct (uniform_spec 0.3 0.8 g ltac:(lra) Ht) as (f & g1 & E1 & _ & T1).
    rewrite E1. rewrite <- T1 in Ht.
    destruct (uniform_spec 1.2 1.8 g1 ltac:(lra) Ht) as (w & g2 & E2 & Hw & _).
    rewrite E2. cbn [ret fst snd].
    apply int_between; [lia | change (inject_Z 80) with 80; nra
                             | change (inject_Z 90000) with 90000; nra].
Qed.

(** X3: with draws of the unit interval, whatever the keyword, the
    search volume of the record lies between 80 and 90000 and its keyword
    difficulty between 15 and 95. *)
Theorem metric_ranges kw g :
  unit_tape (tape g) ->
  let data := fst (generate_mock_seo_data kw g) in
  (80 <= search_volume data <= 90000)%Z
  /\ (15 <= keyword_difficulty data <= 95)%Z.
Proof.
  intros Ht data. subst data.
  destruct (band_spec (List.length (split kw)) g Ht)
    as (v & d & c & g1 & Eb & Hb & Ht1).
  destruct (in_band_all _ _ _ Hb) as [Hv Hd].
  pose proof (adjust_volume (lower kw) c v g1 Ht1 Hv) as Ha.
  destruct (adjust (lower kw) c v g1) as [[c' v'] g2] eqn:Ea.
  destruct (generate_mock_seo_data_fields kw g _ _ _ _ _ _ _ Eb Ea)
    as (-> & -> & _). cbn [fst snd] in Ha. split; assumption.
Qed.

Lemma metric_ranges_witness :
  (80 <= search_volume (fst (generate_mock_seo_data (lit "buy") (constant_tape 0)))
   <= 90000)%Z.
Proof.
  apply (metric_ranges (lit "buy") (constant_tape 0)
           (constant_tape_unit 0 ltac:(lra) ltac:(lra))).
Defined.

(** X4: the competition level follows from the number of words of the
    keyword: with two words or fewer it is High, with three words it is
    never Low, with four words or more it is never High. *)
Theorem competition_by_word_count kw g :
  unit_tape (tape g) ->
  let data := fst (generate_mock_seo_data kw g) in
  let n := List.length (split kw) in
  ((n <= 2)%nat -> competition_level data = lit "High")
  /\ (n = 3%nat -> competition_level data <> lit "Low")
  /\ ((4 <= n)%nat -> competition_level data <> lit "High").
Proof.
  intros Ht data n. subst data n.
  destruct (band_spec (List.length (split kw)) g Ht)
    as (v & d & c & g1 & Eb & (H4 & H3 & H2) & _).
  destruct (adjust (lower kw) c v g1) as [[c' v'] g2] eqn:Ea.
  destruct (generate_mock_seo_data_fields kw g _ _ _ _ _ _ _ Eb Ea)
    as (_ & _ & _ & ->).
  unfold get_competition_level.
  repeat split; intros Hn;
    [destruct (H2 Hn) as [_ Hd] | destruct (H3 Hn) as [_ Hd] | destruct (H4 Hn) as [_ Hd]];
    destruct (Z.ltb_spec d 30); destruct (Z.ltb_spec d 60);
    try lia; try reflexivity; discriminate.
Qed.

Lemma competition_by_word_count_witness :
  competition_level (fst (generate_mock_seo_data (lit "desk lamp") (constant_tape 0.5)))
  = lit "High".
Proof.
  apply (competition_by_word_count (lit "desk lamp") (constant_tape 0.5)
           (constant_tape_unit 0.5 ltac:(lra) ltac:(lra))).
  vm_compute. lia.
Defined.



End SeoRangeFacts.

(** ** Related keywords *)

From Stdlib Require Import Permutation.

Module RelatedFacts.
Import PyStr SeoFetcher RandFacts SeoFacts SeoStageFacts Notions.

(** One step of [random.sample]: the element chosen and the pool left
    make up the pool. *)
Lemma sample_step {A} (pool : list A) j x last :
  nth_error pool j = Some x ->
  nth_error pool (List.length pool - 1) = Some last ->
  Permutation
    (x :: firstn (List.length pool - 1) (firstn j pool ++ last :: skipn (S j) pool))
    pool.
Proof.
  intros Hx Hl.
  destruct (nth_error_split pool j Hx) as (A0 & B & Hp & HA).
  assert (EA : firstn j pool = A0).
  { subst pool j. now rewrite firstn_app, firstn_all, Nat.sub_diag, app_nil_r. }
  assert (EB : skipn (S j) pool = B).
  { subst pool j. change (A0 ++ x :: B) with (A0 ++ [x] ++ B).
    rewrite app_assoc.
    replace (S (List.length A0)) with (List.length (A0 ++ [x]))
      by (rewrite length_app; cbn; lia).
    now rewrite skipn_app, skipn_all, Nat.sub_diag. }
  rewrite EA, EB. subst pool. clear EA EB Hx.
  rewrite length_app in *. cbn [List.length] in *.
  assert (HB : B = [] \/ exists B' a, B = B' ++ [a]).
  { destruct B as [|b B0]; [now left | right].
    destruct (@exists_last _ (b :: B0) ltac:(discriminate)) as (B' & a & E).
    now exists B', a. }
  destruct HB as [->|(B' & a & ->)].
  - cbn [List.length] in *.
    replace (List.length A0 + 1 - 1)%nat with (List.length A0 + 0)%nat in * by lia.
    rewrite firstn_app_2. cbn [firstn]. rewrite app_nil_r.
    apply Permutation_cons_append.
  - rewrite length_app in *. cbn [List.length] in *.
    assert (a = last).
    { replace (List.length A0 + S (List.length B' + 1) - 1)%nat
        with (List.length (A0 ++ x :: B') + 0)%nat in Hl
        by (rewrite length_app; cbn [List.length]; lia).
      change (A0 ++ x :: B' ++ [a]) with (A0 ++ (x :: B') ++ [a]) in Hl.
      rewrite app_assoc, nth_error_app2 in Hl by lia.
      replace (List.length (A0 ++ x :: B') + 0 - List.length (A0 ++ x :: B'))%nat
        with 0%nat in Hl by lia.
      cbn in Hl. congruence. }
    subst a.
    replace (List.length A0 + S (List.length B' + 1) - 1)%nat
      with (List.length (A0 ++ last :: B') + 0)%nat
      by (rewrite length_app; cbn [List.length]; lia).
    change (A0 ++ last :: B' ++ [last]) with (A0 ++ (last :: B') ++ [last]).
    rewrite app_assoc, firstn_app_2. cbn [firstn]. rewrite app_nil_r.
    apply Permutation_trans with (A0 ++ x :: last :: B').
    + apply Permutation_middle.
    + apply Permutation_app_head. constructor.
      apply (Permutation_cons_append B' last).
Qed.

Lemma sample_go_spec {A} k (pool : list A) g :
  unit_tape (tape g) -> (k <= List.length pool)%nat ->
  List.length (fst (sample_go k pool g)) = k
  /\ exists rest, Permutation (fst (sample_go k pool g) ++ rest) pool.
Proof.
  revert pool g. induction k as [|k IH]; intros pool g Ht Hk.
  - split; [reflexivity | now exists pool].
  - cbn [sample_go]. unfold bind.
    pose proof (randbelow_range (Z.of_nat (List.length pool)) g ltac:(lia) Ht) as Hj.
    pose proof (randbelow_tape (Z.of_nat (List.length pool)) g) as Tj.
    destruct (randbelow (Z.of_nat (List.length pool)) g) as [j g1].
    cbn [fst snd] in Hj, Tj. rewrite <- Tj in Ht.
    destruct (nth_error pool (Z.to_nat j)) as [x|] eqn:Ex;
      [|apply nth_error_None in Ex; lia].
    destruct (nth_error pool (List.length pool - 1)) as [last|] eqn:El;
      [|apply nth_error_None in El; lia].
    pose proof (sample_step pool (Z.to_nat j) x last Ex El) as Hp.
    set (pool' := firstn (List.length pool - 1)
                    (firstn (Z.to_nat j) pool ++ last :: skipn (S (Z.to_nat j)) pool)) in *.
    assert (Hl : List.length pool' = (List.length pool - 1)%nat).
    { apply Permutation_length in Hp. cbn [List.length] in Hp. lia. }
    destruct (IH pool' g1 Ht ltac:(lia)) as (Hlen & rest & Hrest).
    destruct (sample_go k pool' g1) as [res g2]. cbn [fst ret] in *.
    split; [cbn [List.length]; now rewrite Hlen|].
    exists rest. cbn [app].
    apply Permutation_trans with (x :: pool'); [now constructor | exact Hp].
Qed.

Lemma base_modifiers_distinct : NoDup base_modifiers.
Proof.
  unfold base_modifiers.
  repeat (constructor; [cbn [In]; intuition discriminate|]). constructor.
Qed.

(** X6: with draws of the unit interval the related keywords are five
    phrases built from five different modifiers of the fixed list,
    followed, for a keyword of more than one word, by the words of the
    keyword in reverse order: five or six entries, so the cut to eight
    never removes one. *)
Theorem related_keywords_shape kw g :
  unit_tape (tape g) ->
  exists modifiers,
    List.length modifiers = 5%nat
    /\ NoDup modifiers
    /\ incl modifiers base_modifiers
    /\ fst (generate_related_keywords kw g)
       = map (related_of kw) modifiers
           ++ (if 1 <? List.length (split kw)
               then [join [SP] (rev (split kw))] else []).
Proof.
  intros Ht. unfold generate_related_keywords, bind, sample.
  destruct (sample_go_spec (Nat.min 5 (List.length base_modifiers)) base_modifiers g Ht
              ltac:(cbn; lia)) as (Hlen & rest & Hperm).
  destruct (sample_go (Nat.min 5 (List.length base_modifiers)) base_modifiers g)
    as [ms g1]. cbn [fst ret] in *.
  exists ms. split; [exact Hlen|].
  assert (Hnd : NoDup (ms ++ rest)).
  { apply Permutation_NoDup with base_modifiers;
      [now apply Permutation_sym | apply base_modifiers_distinct]. }
  split; [now apply NoDup_app_remove_r in Hnd|].
  split.
  - intros m Hm. apply (Permutation_in m Hperm). apply in_or_app. now left.
  - destruct (1 <? List.length (split kw)); rewrite ?app_nil_r;
      apply firstn_all2; rewrite ?length_app, length_map, Hlen; cbn; lia.
Qed.

Lemma related_keywords_shape_witness :
  exists modifiers,
    List.length modifiers = 5%nat
    /\ NoDup modifiers
    /\ incl modifiers base_modifiers
    /\ fst (generate_related_keywords (lit "desk lamp") (constant_tape 0.5))
       = map (related_of (lit "desk lamp")) modifiers
           ++ (if 1 <? List.length (split (lit "desk lamp"))
               then [join [SP] (rev (split (lit "desk lamp")))] else []).
Proof.
  exact (related_keywords_shape (lit "desk lamp") (constant_tape 0.5)
           (constant_tape_unit 0.5 ltac:(lra) ltac:(lra))).
Defined.

End RelatedFacts.

(** ** The table of stored records *)

Module TableFacts.
Import PyStr SeoFetcher Notions.

Lemma str_eqb_spec a b : str_eqb a b = true <-> a = b.
Proof.
  unfold str_eqb. destruct (list_eq_dec ascii_dec a b); split; congruence.
Qed.

Lemma lower_char_idem c : lower_char (lower_char c) = lower_char c.
Proof. destruct c as [[] [] [] [] [] [] [] []]; reflexivity. Qed.

Lemma lower_idem s : lower (lower s) = lower s.
Proof.
  unfold lower. rewrite map_map. apply map_ext. exact lower_char_idem.
Qed.

Lemma lookup_in key d table :
  NoDup (map fst table) -> In (key, d) table -> lookup key table = Some d.
Proof.
  induction table as [|[k v] rest IH]; intros Hnd Hin; [destruct Hin|].
  cbn [map fst] in Hnd. inversion Hnd as [|? ? Hk Hrest]; subst.
  cbn [lookup]. destruct Hin as [E|Hin].
  - injection E as -> ->.
    replace (str_eqb key key) with true; [reflexivity|].
    symmetry. now apply str_eqb_spec.
  - destruct (str_eqb k key) eqn:E; [|now apply IH].
    apply str_eqb_spec in E. subst k. exfalso. apply Hk.
    apply (in_map fst) in Hin. exact Hin.
Qed.

Lemma lookup_found key d table : lookup key table = Some d -> In (key, d) table.
Proof.
  induction table as [|[k v] rest IH]; [discriminate|].
  cbn [lookup]. destruct (str_eqb k key) eqn:E.
  - apply str_eqb_spec in E. subst k. intros H. injection H as ->. now left.
  - intros H. right. now apply IH.
Qed.

Lemma lookup_missing key table :
  (forall d, ~ In (key, d) table) -> lookup key table = None.
Proof.
  intros H. destruct (lookup key table) as [d|] eqn:E; [|reflexivity].
  apply lookup_found in E. now apply H in E.
Qed.

(** X7: a record stored in the table under the lower-cased keyword is
    returned as it is, whatever the letter case of the keyword asked
    for, and no random draw is made; a keyword whose lower-cased form is
    no key of the table, like every keyword when there is no table, gets
    a generated record; and whatever is returned from the table is stored
    under a key in lower case. *)
Theorem get_seo_data_table table kw g :
  NoDup (map fst table) ->
  (forall d, In (lower kw, d) table ->
     forall kw', lower kw' = lower kw -> get_seo_data (Some table) kw' g = (d, g))
  /\ ((forall d, ~ In (lower kw, d) table) ->
      get_seo_data (Some table) kw g = generate_mock_seo_data kw g)
  /\ (forall kw' d,
        lookup (lower kw') table = Some d ->
        exists key, In (key, d) table /\ lower key = key).
Proof.
  intros Hnd. split; [|split].
  - intros d Hin kw' Hkw. unfold get_seo_data. rewrite Hkw.
    now rewrite (lookup_in _ _ _ Hnd Hin).
  - intros Hno. unfold get_seo_data. now rewrite (lookup_missing _ _ Hno).
  - intros kw' d E. exists (lower kw'). split.
    + now apply lookup_found.
    + apply lower_idem.
Qed.

Lemma get_seo_data_table_witness :
  get_seo_data
    (Some [(lit "desk lamp",
            fst (generate_mock_seo_data (lit "desk lamp") (constant_tape 0)))])
    (lit "Desk LAMP") (constant_tape 0.5)
  = (fst (generate_mock_seo_data (lit "desk lamp") (constant_tape 0)), constant_tape 0.5).
Proof.
  apply (proj1 (get_seo_data_table
                  [(lit "desk lamp",
                    fst (generate_mock_seo_data (lit "desk lamp") (constant_tape 0)))]
                  (lit "desk lamp") (constant_tape 0.5)
                  ltac:(repeat constructor; intros [])));
    [now left | reflexivity].
Defined.

End TableFacts.

(** ** Tags *)

Module TagFacts.
Import PyStr AiGenerator Notions ExtraNotions.

Lemma generate_tags_cut kw seo : generate_tags kw seo = firstn 10 (all_tags kw seo).
Proof. reflexivity. Qed.

Lemma filter_all {A} (f : A -> bool) l :
  List.length (filter f l) = List.length l -> filter f l = l.
Proof.
  induction l as [|a l IH]; [reflexivity|].
  cbn [filter List.length]. destruct (f a); cbn [List.length]; intros H.
  - f_equal. apply IH. lia.
  - pose proof (filter_length_le f l). lia.
Qed.

Lemma in_firstn {A} n (l : list A) x : In x (firstn n l) -> In x l.
Proof.
  intros H. rewrite <- (firstn_skipn n l). apply in_or_app. now left.
Qed.

(** X8: the tags are never empty and never more than ten; the keyword
    comes first, then the first five related keywords in their order,
    none of which the cut to ten can remove; every tag after them is a
    generic tag that does not occur, letter case apart, in the keyword
    and related keywords joined by spaces. *)
Theorem generate_tags_shape kw seo :
  let related := firstn 5 (get (sd_related_keywords seo) []) in
  let tags := generate_tags kw seo in
  (1 <= List.length tags <= 10)%nat
  /\ firstn (1 + List.length related) tags = kw :: related
  /\ (forall tag,
        In tag (skipn (1 + List.length related) tags) ->
        In tag generic_tags /\ contains tag (tags_joined kw seo) = false).
Proof.
  intros related tags. subst tags. rewrite generate_tags_cut.
  unfold all_tags. fold related.
  assert (Hr : (List.length related <= 5)%nat).
  { subst related. rewrite length_firstn. lia. }
  split; [|split].
  - rewrite length_firstn, length_app. cbn [List.length]. lia.
  - change (kw :: related) with ([kw] ++ related) at 1. rewrite <- app_assoc.
    rewrite firstn_firstn.
    replace (Nat.min (1 + List.length related) 10) with
      (List.length ([kw] ++ related) + 0)%nat
      by (rewrite length_app; cbn [List.length]; lia).
    rewrite app_assoc, firstn_app_2. cbn [firstn]. now rewrite app_nil_r.
  - intros tag Hin.
    assert (Hk : In tag (generic_kept kw seo)).
    { rewrite skipn_firstn_comm in Hin. apply in_firstn in Hin.
      change (kw :: related) with ([kw] ++ related) in Hin.
      rewrite <- app_assoc in Hin.
      replace (1 + List.length related)%nat
        with (List.length ([kw] ++ related)) in Hin
        by (rewrite length_app; reflexivity).
      rewrite app_assoc, skipn_app, skipn_all, Nat.sub_diag in Hin. exact Hin. }
    unfold generic_kept in Hk. apply filter_In in Hk. destruct Hk as [Hg Hc].
    split; [exact Hg | now apply negb_true_iff in Hc].
Qed.

(** X9: the cut to ten removes at most one tag, and the tag removed is
    the generic tag best: it is removed only when there are five related
    keywords and no generic tag occurs in the joined text. *)
Theorem generate_tags_cut_best kw seo :
  generate_tags kw seo = all_tags kw seo
  \/ (all_tags kw seo = generate_tags kw seo ++ [lit "best"]
      /\ List.length (firstn 5 (get (sd_related_keywords seo) [])) = 5%nat
      /\ generic_kept kw seo = generic_tags).
Proof.
  rewrite generate_tags_cut.
  destruct (Nat.le_gt_cases (List.length (all_tags kw seo)) 10) as [H|H].
  - left. now apply firstn_all2.
  - right. unfold all_tags in *.
    set (related := firstn 5 (get (sd_related_keywords seo) [])) in *.
    assert (Hr : (List.length related <= 5)%nat).
    { subst related. rewrite length_firstn. lia. }
    pose proof (filter_length_le
                  (fun tag => negb (contains tag (tags_joined kw seo))) generic_tags) as Hg.
    fold (generic_kept kw seo) in Hg.
    change (List.length generic_tags) with 5%nat in Hg.
    rewrite length_app in H. cbn [List.length] in H.
    assert (Hr5 : List.length related = 5%nat) by lia.
    assert (Hg5 : generic_kept kw seo = generic_tags).
    { apply filter_all. change (List.length generic_tags) with 5%nat.
      fold (generic_kept kw seo). lia. }
    split; [|split; [exact Hr5 | exact Hg5]].
    rewrite Hg5. unfold generic_tags.
    change [lit "review"; lit "guide"; lit "buying guide"; lit "2024"; lit "best"]
      with ([lit "review"; lit "guide"; lit "buying guide"; lit "2024"] ++ [lit "best"]).
    rewrite app_assoc.
    replace 10%nat with
      (List.length ((kw :: related)
                      ++ [lit "review"; lit "guide"; lit "buying guide"; lit "2024"]) + 0)%nat
      by (rewrite length_app; cbn [List.length]; lia).
    rewrite firstn_app_2. cbn [firstn]. now rewrite app_nil_r.
Qed.

End TagFacts.

(** ** Affiliate links *)

Module LinkFacts.
Import PyStr AiGenerator Notions ExtraNotions CleanFacts.

Lemma replace_go_skipn old new k s :
  replace_go old new k s = replace_go old new 0 (skipn k s).
Proof.
  revert k. induction s as [|c t IH]; intros k.
  - destruct k; reflexivity.
  - destruct k as [|k]; [reflexivity|]. cbn [replace_go skipn]. apply IH.
Qed.

Lemma replace_step old new s :
  replace old new s
  = match s with
    | [] => []
    | c :: t =>
        if startswith old s
        then new ++ replace old new (skipn (List.length old - 1) t)
        else c :: replace old new t
    end.
Proof.
  unfold replace. destruct s as [|c t]; [reflexivity|].
  cbn [replace_go]. destruct (startswith old (c :: t)); [|reflexivity].
  now rewrite replace_go_skipn.
Qed.

Lemma skipn_suffix {A} n (l : list A) : exists pre, l = pre ++ skipn n l.
Proof. exists (firstn n l). now rewrite firstn_skipn. Qed.

Lemma existsb_eqb_false c s :
  existsb (Ascii.eqb c) s = false -> ~ In c s.
Proof.
  intros H Hin. assert (E : existsb (Ascii.eqb c) s = true).
  { apply existsb_exists. exists c. split; [exact Hin | apply Ascii.eqb_refl]. }
  congruence.
Qed.

Section ReplaceKeepsAbsent.

Variables old new p : str.
Hypothesis p_new_apart : apart p new = true.

Lemma apart_heads :
  exists p0 p' n0 new',
    p = p0 :: p' /\ new = n0 :: new' /\ ~ In p0 new /\ ~ In n0 p.
Proof.
  unfold apart in p_new_apart.
  destruct p as [|p0 p']; [discriminate|]. destruct new as [|n0 new']; [discriminate|].
  apply andb_true_iff in p_new_apart. destruct p_new_apart as [H1 H2].
  apply negb_true_iff in H1, H2.
  exists p0, p', n0, new'. repeat split; now apply existsb_eqb_false.
Qed.

(** What starts the output started the input, for a text [q] that does
    not hold the first character of [new]. *)
Lemma replace_head q s :
  (forall n0 new', new = n0 :: new' -> ~ In n0 q) ->
  startswith q (replace old new s) = true -> startswith q s = true.
Proof.
  revert q. induction s as [|c t IH]; intros q Hq; rewrite replace_step.
  - exact (fun H => H).
  - destruct q as [|a q]; [reflexivity|].
    destruct (startswith old (c :: t)) eqn:Eo.
    + destruct apart_heads as (p0 & p' & n0 & new' & _ & -> & _ & _).
      cbn [app startswith]. intros H. apply andb_true_iff in H. destruct H as [H _].
      apply Ascii.eqb_eq in H. subst a. exfalso.
      apply (Hq n0 new' eq_refl). now left.
    + cbn [startswith]. intros H. apply andb_true_iff in H. destruct H as [H1 H2].
      rewrite H1. cbn [andb]. apply IH; [|exact H2].
      intros n0 new' E Hin. apply (Hq n0 new' E). now right.
Qed.

Lemma contains_through_new x :
  contains p (new ++ x) = contains p x.
Proof.
  destruct apart_heads as (p0 & p' & n0 & new' & Hp & _ & Hnot & _).
  revert Hnot. generalize new as l. induction l as [|c l IH]; intros Hnot; [reflexivity|].
  change ((c :: l) ++ x) with (c :: (l ++ x)). rewrite contains_cons.
  rewrite IH by (intros H; apply Hnot; now right).
  rewrite Hp. cbn [startswith]. rewrite <- Hp.
  destruct (Ascii.eqb_spec p0 c) as [->|]; [|reflexivity].
  exfalso. apply Hnot. now left.
Qed.

Lemma replace_keeps_absent_aux n :
  forall s,
    (List.length s <= n)%nat ->
    (forall s', suffix_of s' s -> startswith old s' = false -> startswith p s' = false) ->
    contains p (replace old new s) = false.
Proof.
  induction n as [|n IH]; intros s Hn Hs; rewrite replace_step.
  - destruct s; [|cbn [List.length] in Hn; lia].
    destruct apart_heads as (p0 & p' & _ & _ & -> & _). reflexivity.
  - destruct s as [|c t].
    { destruct apart_heads as (p0 & p' & _ & _ & -> & _). reflexivity. }
    cbn [List.length] in Hn. destruct (startswith old (c :: t)) eqn:Eo.
    + rewrite contains_through_new.
      destruct (skipn_suffix (List.length old - 1) t) as [pre Hpre].
      apply IH.
      * rewrite Hpre in Hn. rewrite length_app in Hn. lia.
      * intros s' Hs'. apply Hs. apply suffix_trans with t; [|apply suffix_cons].
        apply suffix_trans with (skipn (List.length old - 1) t); [exact Hs'|].
        now exists pre.
    + rewrite contains_cons.
      assert (Ht : contains p (replace old new t) = false).
      { apply IH; [lia|]. intros s' Hs'. apply Hs.
        apply suffix_trans with t; [exact Hs' | apply suffix_cons]. }
      rewrite Ht, orb_false_r.
      destruct (startswith p (c :: replace old new t)) eqn:Ep; [|reflexivity].
      exfalso.
      assert (Hc : startswith p (replace old new (c :: t)) = true).
      { rewrite replace_step, Eo. exact Ep. }
      apply replace_head in Hc.
      * rewrite (Hs (c :: t) (suffix_refl _) Eo) in Hc. discriminate.
      * intros n0 new' E.
        destruct apart_heads as (p0 & p' & n1 & new1 & _ & E1 & _ & Hnot).
        congruence.
Qed.

Lemma replace_keeps_absent s :
  (forall s', suffix_of s' s -> startswith old s' = false -> startswith p s' = false) ->
  contains p (replace old new s) = false.
Proof. apply (replace_keeps_absent_aux (List.length s)). lia. Qed.

End ReplaceKeepsAbsent.

(** Every occurrence of [old] is replaced. *)
Lemma replace_removes old new s :
  apart old new = true -> contains old (replace old new s) = false.
Proof.
  intros Ha. apply (replace_keeps_absent old new old Ha). now intros s' _ H.
Qed.

(** No occurrence of a text [p] is made by the replacement. *)
Lemma replace_makes_none old new p s :
  apart p new = true ->
  contains p s = false -> contains p (replace old new s) = false.
Proof.
  intros Ha Hs. apply (replace_keeps_absent old new p Ha).
  intros s' Hs' _. apply contains_startswith. now apply contains_suffix with s.
Qed.

Lemma replace_all_makes_none p links s :
  forallb (fun pl => apart p (snd pl)) links = true ->
  contains p s = false ->
  contains p (fold_left (fun c pl => replace (fst pl) (snd pl) c) links s) = false.
Proof.
  revert s. induction links as [|[old new] links IH]; intros s Hl Hs; [exact Hs|].
  cbn [forallb snd] in Hl. apply andb_true_iff in Hl. destruct Hl as [H1 H2].
  cbn [fold_left fst snd]. apply IH; [exact H2|].
  now apply replace_makes_none.
Qed.

Lemma replace_all_removes links :
  forallb (fun pl => forallb (fun pl' => apart (fst pl) (snd pl')) links) links = true ->
  forall s,
    Forall (fun pl =>
              contains (fst pl)
                (fold_left (fun c pl => replace (fst pl) (snd pl) c) links s) = false)
      links.
Proof.
  intros H s. apply Forall_forall. intros [old new] Hin.
  assert (Ha : forallb (fun pl' => apart old (snd pl')) links = true).
  { rewrite forallb_forall in H. exact (H (old, new) Hin). }
  cbn [fst]. revert s Ha Hin. clear H.
  induction links as [|[o n] links IH]; intros s Ha Hin; [destruct Hin|].
  cbn [forallb snd] in Ha. apply andb_true_iff in Ha. destruct Ha as [H1 H2].
  cbn [fold_left fst snd]. destruct Hin as [E|Hin].
  - injection E as -> ->.
    apply replace_all_makes_none; [exact H2 | now apply replace_removes].
  - now apply IH.
Qed.

(** X10: once the placeholders are replaced by their links, none of the
    five placeholders occurs in the text, whatever the text was; so in
    the output of [process_blog_content] for a content that starts with
    the DOCTYPE declaration. *)
Theorem replace_links_leaves_none content :
  Forall (fun pl => contains (fst pl) (replace_links content) = false) affiliate_links
  /\ forall kw,
       startswith doctype (strip content) = true ->
       Forall (fun pl => contains (fst pl) (process_blog_content content kw) = false)
         affiliate_links.
Proof.
  assert (H : Forall (fun pl => contains (fst pl) (replace_links content) = false)
                affiliate_links).
  { unfold replace_links. now apply replace_all_removes. }
  split; [exact H|]. intros kw Hd.
  unfold process_blog_content. fold doctype.
  rewrite ShellFacts.replace_links_doctype, Hd. exact H.
Qed.

Lemma replace_links_leaves_none_witness :
  Forall (fun pl =>
            contains (fst pl)
              (process_blog_content
                 (lit "<!DOCTYPE html><a href={{AFF_LINK_1}}>{{AFF_LINK_5}}</a>")
                 (lit "desk lamp")) = false)
    affiliate_links.
Proof.
  apply (replace_links_leaves_none
           (lit "<!DOCTYPE html><a href={{AFF_LINK_1}}>{{AFF_LINK_5}}</a>")).
  reflexivity.
Defined.

End LinkFacts.

(** ** Tag stripping *)

Module TagStripFacts.
Import PyStr AiGenerator Notions ExtraNotions CleanFacts.

Lemma tag_cases s :
  Re.tag s
  = match s with
    | c0 :: c :: t =>
        if Ascii.eqb c0 "<"%char && Re.not_gt c
        then Re.exact (lit ">") (Re.many Re.not_gt t)
        else None
    | _ => None
    end.
Proof.
  unfold Re.tag, Re.exact. cbn [lit list_ascii_of_string startswith List.length skipn].
  destruct s as [|c0 [|c t]].
  - reflexivity.
  - rewrite Ascii.eqb_sym. destruct (Ascii.eqb c0 "<"); reflexivity.
  - rewrite (Ascii.eqb_sym "<" c0). destruct (Ascii.eqb c0 "<"); [|reflexivity].
    cbn [andb Re.bind_opt Re.one]. destruct (Re.not_gt c); reflexivity.
Qed.

Lemma tag_strict : strict Re.tag.
Proof.
  intros s rest H. rewrite tag_cases in H.
  destruct s as [|c0 [|c t]]; try discriminate.
  destruct (Ascii.eqb c0 "<" && Re.not_gt c); [|discriminate].
  apply exact_consumes in H. pose proof (many_suffix Re.not_gt t) as Hm.
  assert (Hs : suffix_of rest t) by (now apply suffix_trans with (Re.many Re.not_gt t)).
  split.
  - apply suffix_trans with t; [exact Hs|].
    apply suffix_trans with (c :: t); apply suffix_cons.
  - apply suffix_length in Hs. cbn [List.length]. lia.
Qed.

Lemma many_no_gt t : ~ In ">"%char t -> Re.many Re.not_gt t = [].
Proof.
  induction t as [|c t IH]; intros H; [reflexivity|].
  cbn [Re.many]. unfold Re.not_gt at 1.
  destruct (Ascii.eqb_spec c ">") as [->|Hc]; cbn [negb].
  - exfalso. apply H. now left.
  - apply IH. intros Hin. apply H. now right.
Qed.

Lemma many_gt t : In ">"%char t -> exists r, Re.many Re.not_gt t = ">"%char :: r.
Proof.
  induction t as [|c t IH]; intros H; [destruct H|].
  cbn [Re.many]. unfold Re.not_gt at 1.
  destruct (Ascii.eqb_spec c ">") as [->|Hc]; cbn [negb].
  - now exists t.
  - apply IH. destruct H as [H|H]; [congruence | exact H].
Qed.

(** An opening bracket followed by no closing one opens no tag. *)
Lemma tag_without_gt t : ~ In ">"%char t -> Re.tag ("<"%char :: t) = None.
Proof.
  intros H. rewrite tag_cases. destruct t as [|c t]; [reflexivity|].
  destruct (Re.not_gt c); cbn [Ascii.eqb andb]; [|reflexivity].
  rewrite many_no_gt; [reflexivity|]. intros Hin. apply H. now right.
Qed.

Lemma tag_none_no_gt c t :
  Re.not_gt c = true -> Re.tag ("<"%char :: c :: t) = None -> ~ In ">"%char t.
Proof.
  intros Hc H Hin. rewrite tag_cases, Hc in H.
  destruct (many_gt t Hin) as [r Hr]. rewrite Hr in H. discriminate.
Qed.

Lemma sub_chars m s x :
  strict m -> In x (Re.sub m [] s) -> In x s.
Proof.
  intros Hm.
  assert (H : forall n s, (List.length s <= n)%nat -> In x (Re.sub m [] s) -> In x s).
  { clear s. induction n as [|n IH]; intros s Hn; rewrite (sub_step m [] s Hm).
    - destruct s; [|cbn [List.length] in Hn; lia].
      destruct (m []) as [r|] eqn:E; [|exact (fun H => H)].
      destruct (Hm _ _ E) as [_ Hl]. cbn [List.length] in Hl. lia.
    - destruct (m s) as [rest|] eqn:E.
      + destruct (Hm _ _ E) as [[pre ->] Hl]. cbn [app]. intros Hin.
        apply in_or_app. right. apply IH; [lia | exact Hin].
      + destruct s as [|c t]; [exact (fun H => H)|].
        cbn [List.length] in Hn. intros [H|H]; [now left | right].
        apply IH; [lia | exact H]. }
  now apply (H (List.length s)).
Qed.

Lemma suffix_cons_inv s' c l :
  suffix_of s' (c :: l) -> s' = c :: l \/ suffix_of s' l.
Proof.
  intros [[|a pre] H]; [left; now symmetry|].
  right. injection H as _ ->. now exists pre.
Qed.

Lemma strip_tags_no_tag_aux n :
  forall s, (List.length s <= n)%nat ->
  forall s', suffix_of s' (Re.strip_tags s) -> Re.tag s' = None.
Proof.
  unfold Re.strip_tags.
  induction n as [|n IH]; intros s Hn s'; rewrite (sub_step Re.tag [] s tag_strict).
  - destruct s; [|cbn [List.length] in Hn; lia]. cbn.
    intros [pre H]. symmetry in H. apply app_eq_nil in H. destruct H as [_ ->].
    reflexivity.
  - destruct (Re.tag s) as [rest|] eqn:E.
    + destruct (tag_strict _ _ E) as [_ Hl]. cbn [app]. apply IH. lia.
    + destruct s as [|c t].
      { intros [pre H]. symmetry in H. apply app_eq_nil in H. destruct H as [_ ->].
        reflexivity. }
      cbn [List.length] in Hn. intros Hs'.
      apply suffix_cons_inv in Hs'. destruct Hs' as [->|Hs']; [|now apply (IH t ltac:(lia))].
      destruct (Ascii.eqb_spec c "<") as [->|Hc].
      * destruct t as [|c' t'].
        { rewrite (sub_step Re.tag [] [] tag_strict). reflexivity. }
        destruct (Re.not_gt c') eqn:Eg.
        -- apply tag_without_gt. intros Hin.
           apply (sub_chars Re.tag _ _ tag_strict) in Hin.
           pose proof (tag_none_no_gt c' t' Eg E) as Hno.
           destruct Hin as [Hin|Hin]; [|now apply Hno].
           subst c'. discriminate.
        -- rewrite (sub_step Re.tag [] (c' :: t') tag_strict).
           assert (Ec : Re.tag (c' :: t') = None).
           { rewrite tag_cases. destruct t'; [reflexivity|].
             unfold Re.not_gt in Eg. apply negb_false_iff in Eg.
             apply Ascii.eqb_eq in Eg. subst c'. reflexivity. }
           rewrite Ec, tag_cases, Eg. cbn [Ascii.eqb andb]. reflexivity.
      * rewrite tag_cases. destruct (Re.sub Re.tag [] t); [reflexivity|].
        apply Ascii.eqb_neq in Hc. rewrite Hc. reflexivity.
Qed.

Lemma sub_no_match m r s :
  strict m -> (forall s', suffix_of s' s -> m s' = None) -> Re.sub m r s = s.
Proof.
  intros Hm. induction s as [|c t IH]; intros H; rewrite (sub_step m r _ Hm).
  - now rewrite (H [] (suffix_refl _)).
  - rewrite (H (c :: t) (suffix_refl _)). f_equal. apply IH.
    intros s' Hs'. apply H. apply suffix_trans with t; [exact Hs' | apply suffix_cons].
Qed.

(** X11: once the tags are stripped no tag is left: the pattern of a
    tag matches nowhere in the result, and stripping the result again
    changes nothing. *)
Theorem strip_tags_leaves_no_tag s :
  (forall s', suffix_of s' (Re.strip_tags s) -> Re.tag s' = None)
  /\ Re.strip_tags (Re.strip_tags s) = Re.strip_tags s.
Proof.
  assert (H : forall s', suffix_of s' (Re.strip_tags s) -> Re.tag s' = None).
  { apply (strip_tags_no_tag_aux (List.length s)). lia. }
  split; [exact H|].
  unfold Re.strip_tags at 1. apply sub_no_match; [exact tag_strict | exact H].
Qed.

End TagStripFacts.

(** ** White space around the title *)

Module StripFacts.
Import PyStr AiGenerator Notions ExtraNotions.

Lemma lstrip_solid s : solid_head s = true -> lstrip s = s.
Proof.
  destruct s as [|c t]; [discriminate|]. cbn [solid_head lstrip].
  intros H. apply negb_true_iff in H. now rewrite H.
Qed.

Lemma lstrip_head s : lstrip s = [] \/ solid_head (lstrip s) = true.
Proof.
  induction s as [|c t IH]; [now left|].
  cbn [lstrip]. destruct (is_space c) eqn:E; [exact IH|].
  right. cbn [solid_head]. now rewrite E.
Qed.

Lemma rstrip_idem s : rstrip (rstrip s) = rstrip s.
Proof.
  induction s as [|c t IH]; [reflexivity|].
  cbn [rstrip]. destruct (rstrip t) as [|r0 r] eqn:E.
  - destruct (is_space c) eqn:Ec; [reflexivity|]. cbn [rstrip]. now rewrite Ec.
  - change (rstrip (c :: r0 :: r))
      with (match rstrip (r0 :: r) with
            | [] => if is_space c then [] else [c]
            | x :: y => c :: x :: y
            end).
    now rewrite IH.
Qed.

Lemma rstrip_head s : solid_head s = true -> solid_head (rstrip s) = true.
Proof.
  destruct s as [|c t]; [discriminate|]. cbn [solid_head rstrip].
  intros H. destruct (rstrip t); [|exact H].
  apply negb_true_iff in H. rewrite H. cbn [solid_head]. now rewrite H.
Qed.

Lemma rstrip_app a b : rstrip b <> [] -> rstrip (a ++ b) = a ++ rstrip b.
Proof.
  intros Hb. induction a as [|c a IH]; [reflexivity|].
  cbn [app rstrip]. rewrite IH.
  destruct (a ++ rstrip b) eqn:E; [|reflexivity].
  apply app_eq_nil in E. destruct E as [_ E]. congruence.
Qed.

(** Stripping twice is stripping once. *)
Lemma strip_idem s : strip (strip s) = strip s.
Proof.
  unfold strip. destruct (lstrip_head s) as [E|E].
  - rewrite E. reflexivity.
  - rewrite (lstrip_solid _ (rstrip_head _ E)). apply rstrip_idem.
Qed.

Lemma strip_solid_head s : strip s <> [] -> solid_head (strip s) = true.
Proof.
  unfold strip. intros H. destruct (lstrip_head s) as [E|E].
  - rewrite E in H. now contradiction H.
  - now apply rstrip_head.
Qed.

Lemma first_text_line_stripped lines t :
  first_text_line lines = Some t ->
  strip t = t /\ (List.length t <= 103)%nat.
Proof.
  induction lines as [|line rest IH]; [discriminate|].
  cbn [first_text_line]. set (cl := strip (Re.strip_tags line)).
  destruct (Nat.ltb_spec 10 (List.length cl)) as [H10|H10]; [|exact IH].
  intros H.
  assert (Et : t = firstn 100 cl
                     ++ (if 100 <? List.length cl then lit "..." else []))
    by congruence.
  clear H IH. subst t.
  destruct (Nat.ltb_spec 100 (List.length cl)) as [H100|H100].
  - split.
    + assert (Hh : solid_head (firstn 100 cl ++ lit "...") = true).
      { assert (Hs : solid_head cl = true).
        { apply strip_solid_head. fold cl. destruct cl; [cbn in H10; lia | discriminate]. }
        destruct cl; [discriminate | exact Hs]. }
      unfold strip. rewrite (lstrip_solid _ Hh).
      now apply rstrip_app.
    + rewrite length_app, length_firstn. cbn [lit list_ascii_of_string List.length]. lia.
  - rewrite app_nil_r, firstn_all2 by lia. split; [apply strip_idem | lia].
Qed.

(** X12: the extracted title has no white space at either end, whatever
    the content; and when the content holds no heading and no title
    element the title has at most 103 characters. *)
Theorem extract_title_stripped content :
  strip (extract_title content) = extract_title content
  /\ (Re.search Re.h1 content = None ->
      Re.search Re.heading content = None ->
      Re.search Re.title_tag content = None ->
      (List.length (extract_title content) <= 103)%nat).
Proof.
  unfold extract_title.
  destruct (Re.search Re.h1 content) as [g|]; [split; [apply strip_idem | discriminate]|].
  destruct (Re.search Re.heading content) as [g|];
    [split; [apply strip_idem | discriminate]|].
  destruct (Re.search Re.title_tag content) as [g|];
    [split; [apply strip_idem | discriminate]|].
  destruct (first_text_line (split_on NL content)) as [t|] eqn:E.
  - destruct (first_text_line_stripped _ _ E) as [H1 H2]. split; [exact H1 | now intros].
  - split; [reflexivity | intros; cbn; lia].
Qed.

Lemma extract_title_stripped_witness :
  (List.length (extract_title (lit "plain text with no heading at all")) <= 103)%nat.
Proof.
  apply (extract_title_stripped (lit "plain text with no heading at all"));
    reflexivity.
Defined.

End StripFacts.

(** ** The shape of the meta description *)

Module DescriptionFacts.
Import PyStr AiGenerator Notions ExtraNotions MetaFacts StripFacts.

Lemma first_paragraph_found kw ps d :
  first_paragraph kw ps = Some d ->
  exists p,
    In p ps /\ (50 < List.length p)%nat
    /\ contains (lower kw) (lower p) = true
    /\ d = truncate_description p.
Proof.
  induction ps as [|p ps IH]; [discriminate|].
  cbn [first_paragraph].
  destruct (contains (lower kw) (lower p)) eqn:Ec;
    [destruct (Nat.ltb_spec 50 (List.length p)) as [Hl|Hl]|]; cbn [andb].
  - intros H. exists p. repeat split; [now left | exact Hl | exact Ec | congruence].
  - intros H. destruct (IH H) as (q & Hq & Hr). exists q. split; [now right | exact Hr].
  - intros H. destruct (IH H) as (q & Hq & Hr). exists q. split; [now right | exact Hr].
Qed.

Lemma split_on_no_sep sep s w : In w (split_on sep s) -> ~ In sep w.
Proof.
  revert w. induction s as [|c t IH]; intros w.
  - intros [<-|[]]. exact (fun H => H).
  - cbn [split_on]. destruct (Ascii.eqb_spec c sep) as [->|Hc].
    + intros [<-|H]; [exact (fun H => H) | now apply IH].
    + destruct (split_on sep t) as [|w0 ws] eqn:E.
      * intros [<-|[]]. intros [H|[]]. congruence.
      * intros [<-|H].
        -- intros [H|H]; [congruence|]. revert H. apply IH. now left.
        -- apply IH. now right.
Qed.

Lemma lstrip_incl s x : In x (lstrip s) -> In x s.
Proof.
  induction s as [|c t IH]; [exact (fun H => H)|].
  cbn [lstrip]. destruct (is_space c); [|exact (fun H => H)].
  intros H. right. now apply IH.
Qed.

Lemma rstrip_incl s x : In x (rstrip s) -> In x s.
Proof.
  induction s as [|c t IH]; [exact (fun H => H)|].
  cbn [rstrip]. destruct (rstrip t) as [|r0 r].
  - destruct (is_space c); [intros [] | intros [H|[]]; now left].
  - intros [H|H]; [now left | right; now apply IH].
Qed.

Lemma strip_incl s x : In x (strip s) -> In x s.
Proof. intros H. apply lstrip_incl. now apply rstrip_incl in H. Qed.

Lemma rsplit1_head_incl sep s x : In x (rsplit1_head sep s) -> In x s.
Proof.
  unfold rsplit1_head. destruct (before_last sep s) as [r|] eqn:E; [|exact (fun H => H)].
  destruct (before_last_split sep s r E) as (rest & -> & _).
  intros H. apply in_or_app. now left.
Qed.

Lemma paragraphs_one_line content p : In p (paragraphs_of content) -> ~ In NL p.
Proof.
  unfold paragraphs_of. intros H. apply in_map_iff in H.
  destruct H as (line & <- & Hl). apply filter_In in Hl. destruct Hl as [Hl _].
  intros Hin. apply strip_incl in Hin. revert Hin.
  now apply (split_on_no_sep NL (Re.strip_tags content) line).
Qed.

(** X13: the meta description is never empty.  It is the generic
    sentence, or else it is cut from one line of the text: it holds no
    line break, and has at least 3 and at most 158 characters. *)
Theorem meta_description_shape kw content :
  let d := generate_meta_description kw content in
  d <> []
  /\ (d = generic_description kw
      \/ (~ In NL d /\ (3 <= List.length d <= 158)%nat)).
Proof.
  intros d. subst d. unfold generate_meta_description.
  destruct (first_paragraph kw (firstn 5 (paragraphs_of content))) as [d|] eqn:E.
  - destruct (first_paragraph_found _ _ _ E) as (p & Hin & Hlen & _ & ->).
    assert (Hp : ~ In NL p).
    { apply (paragraphs_one_line content).
      rewrite <- (firstn_skipn 5 (paragraphs_of content)). apply in_or_app. now left. }
    assert (Hb : ~ In NL (truncate_description p)
                 /\ (3 <= List.length (truncate_description p) <= 158)%nat).
    { destruct (Nat.le_gt_cases (List.length p) 155) as [Hs|Hl].
      - rewrite (truncate_description_short p Hs). split; [exact Hp | lia].
      - destruct (truncate_description_long p Hl) as [Ed Hd]. split.
        + rewrite Ed. intros H. apply in_app_or in H. destruct H as [H|H].
          * apply rsplit1_head_incl in H. apply Hp.
            rewrite <- (firstn_skipn 155 p). apply in_or_app. now left.
          * cbn in H. intuition discriminate.
        + split; [|exact Hd]. rewrite Ed, length_app. cbn [lit list_ascii_of_string List.length].
          lia. }
    split; [|right; exact Hb].
    destruct (truncate_description p); [cbn in Hb; lia | discriminate].
  - split; [discriminate | now left].
Qed.

End DescriptionFacts.

(** ** The post as a whole *)

Module PostFacts.
Import PyStr AiGenerator Notions ExtraNotions.

Lemma process_blog_content_starts content kw :
  startswith doctype (lstrip (process_blog_content content kw)) = true.
Proof.
  unfold process_blog_content. fold doctype.
  destruct (startswith doctype (strip (replace_links content))) eqn:E; cbn [negb].
  - now rewrite ShellFacts.startswith_strip in E.
  - apply ShellFacts.html_shell_doctype.
Qed.

(** X14: every post that [generate_blog_post] returns, generated or
    fallback, has a content that starts, leading white space apart, with
    the DOCTYPE declaration; its word count is the number of words of
    that content, its reading time is computed from that content, and
    its tags are those of the keyword. *)
Theorem generate_blog_post_invariants env kw seo :
  exists post,
    generate_blog_post env kw seo = Returned post
    /\ startswith doctype (lstrip (content post)) = true
    /\ word_count post = count_words (content post)
    /\ estimated_reading_time post = calculate_reading_time (content post)
    /\ tags post = generate_tags kw seo.
Proof.
  assert (Hf : forall my,
             let post := generate_fallback_content my kw seo in
             startswith doctype (lstrip (content post)) = true
             /\ word_count post = count_words (content post)
             /\ estimated_reading_time post = calculate_reading_time (content post)
             /\ tags post = generate_tags kw seo).
  { intros my post. repeat split. }
  unfold generate_blog_post. destruct (no_key env).
  - eexists. split; [reflexivity | apply Hf].
  - destruct (chat_completion env system_message (create_blog_post_prompt kw seo))
      as [response|e]; cbn [bind_outcome try_except].
    + eexists. split; [reflexivity|]. cbn [content word_count estimated_reading_time tags].
      split; [apply process_blog_content_starts | repeat split].
    + eexists. split; [reflexivity | apply Hf].
Qed.

Lemma reading_time_minutes content :
  calculate_reading_time content = str_of_Z (reading_minutes content) ++ lit " min read".
Proof. reflexivity. Qed.

(** X15: the minutes of reading grow with the number of words: a
    content of at most 337 words, so an empty one, reads in 1 minute, a
    content of 338 words or more in 2 minutes at least, and more words
    never give fewer minutes. *)
Theorem reading_minutes_steps c1 c2 :
  ((count_words c1 <= 337)%nat -> calculate_reading_time c1 = lit "1 min read")
  /\ ((338 <= count_words c1)%nat -> (2 <= reading_minutes c1)%Z)
  /\ ((count_words c1 <= count_words c2)%nat ->
      (reading_minutes c1 <= reading_minutes c2)%Z)
  /\ calculate_reading_time [] = lit "1 min read".
Proof.
  assert (Hm : forall c, reading_minutes c
                         = Z.max 1 ((Z.of_nat (count_words c) + 112) / 225)).
  { intros c. unfold reading_minutes. rewrite ReadingFacts.round_225 by lia. reflexivity. }
  repeat split.
  - intros H. rewrite reading_time_minutes, Hm.
    replace ((Z.of_nat (count_words c1) + 112) / 225)%Z with
      (if (Z.of_nat (count_words c1) + 112 <? 225)%Z then 0%Z else 1%Z).
    + destruct (Z.of_nat (count_words c1) + 112 <? 225)%Z; reflexivity.
    + destruct (Z.ltb_spec (Z.of_nat (count_words c1) + 112) 225).
      * symmetry. apply Z.div_small. lia.
      * apply Z.div_unique with (Z.of_nat (count_words c1) + 112 - 225)%Z; lia.
  - intros H. rewrite Hm.
    assert (2 <= (Z.of_nat (count_words c1) + 112) / 225)%Z; [|lia].
    apply Z.div_le_lower_bound; lia.
  - intros H. rewrite !Hm.
    assert ((Z.of_nat (count_words c1) + 112) / 225
            <= (Z.of_nat (count_words c2) + 112) / 225)%Z; [|lia].
    apply Z.div_le_mono; lia.
Qed.

Lemma reading_minutes_steps_witness :
  calculate_reading_time (words_text 337) = lit "1 min read"
  /\ (2 <= reading_minutes (words_text 338))%Z.
Proof.
  split.
  - apply (proj1 (reading_minutes_steps (words_text 337) [])).
    apply Nat.leb_le. vm_compute. reflexivity.
  - apply (proj1 (proj2 (reading_minutes_steps (words_text 338) []))).
    apply Nat.leb_le. vm_compute. reflexivity.
Defined.

End PostFacts.

(** ** Saved posts *)

Module StorageFacts.
Import PyStr AiGenerator Storage Notions ExtraNotions.

Lemma replace_char_map (c d : ascii) s :
  replace [c] [d] s = map (fun x => if Ascii.eqb x c then d else x) s.
Proof.
  unfold replace. induction s as [|x t IH]; [reflexivity|].
  cbn [replace_go startswith map List.length Nat.sub app].
  rewrite (Ascii.eqb_sym c x). destruct (Ascii.eqb x c); cbn [andb app]; now rewrite IH.
Qed.

(** X16: the keyword part of a file name is the keyword with every space
    and every slash turned into an underscore, character by character:
    it has the length of the keyword and holds no space and no slash.
    Two keywords that differ only by spaces, slashes and underscores so
    get the same file names. *)
Theorem safe_keyword_chars kw :
  safe_keyword kw = map underscored kw
  /\ List.length (safe_keyword kw) = List.length kw
  /\ ~ In SP (safe_keyword kw)
  /\ ~ In "/"%char (safe_keyword kw)
  /\ forall kw', map underscored kw' = map underscored kw ->
                 safe_keyword kw' = safe_keyword kw.
Proof.
  assert (H : forall k, safe_keyword k = map underscored k).
  { intros k. unfold safe_keyword.
    change (lit "/") with ["/"%char]. change (lit "_") with ["_"%char].
    rewrite !replace_char_map, map_map. apply map_ext. intros x. unfold underscored.
    destruct (Ascii.eqb_spec x SP) as [->|Hs]; [reflexivity|].
    cbn [orb]. reflexivity. }
  split; [apply H|]. split; [now rewrite H, length_map|].
  split; [|split].
  - rewrite H. intros Hin. apply in_map_iff in Hin. destruct Hin as (x & Hx & _).
    unfold underscored in Hx.
    destruct (Ascii.eqb x SP) eqn:E1; destruct (Ascii.eqb x "/") eqn:E2;
      cbn [orb] in Hx; try discriminate.
    apply Ascii.eqb_neq in E1. congruence.
  - rewrite H. intros Hin. apply in_map_iff in Hin. destruct Hin as (x & Hx & _).
    unfold underscored in Hx.
    destruct (Ascii.eqb x SP) eqn:E1; destruct (Ascii.eqb x "/") eqn:E2;
      cbn [orb] in Hx; try discriminate.
    apply Ascii.eqb_neq in E2. congruence.
  - intros kw' E. now rewrite !H.
Qed.

Lemma safe_keyword_chars_witness :
  safe_keyword (lit "desk/lamp") = safe_keyword (lit "desk lamp").
Proof.
  apply (safe_keyword_chars (lit "desk lamp")). reflexivity.
Defined.

Lemma str_eqb_refl s : SeoFetcher.str_eqb s s = true.
Proof. now apply TableFacts.str_eqb_spec. Qed.

Lemma str_eqb_neq a b : a <> b -> SeoFetcher.str_eqb a b = false.
Proof.
  intros H. destruct (SeoFetcher.str_eqb a b) eqn:E; [|reflexivity].
  apply TableFacts.str_eqb_spec in E. contradiction.
Qed.

Lemma paths_differ h kw dir : json_path h kw dir <> html_path h kw dir.
Proof.
  unfold json_path, html_path. intros H.
  repeat apply app_inv_head in H. discriminate H.
Qed.

Lemma read_written path text d : read path ((path, text) :: d) = Some text.
Proof. cbn [read]. now rewrite str_eqb_refl. Qed.

Lemma read_other path p text d : p <> path -> read path ((p, text) :: d) = read path d.
Proof. intros H. cbn [read]. now rewrite (str_eqb_neq _ _ H). Qed.

(** A save that the system does not refuse. *)
Lemma save_blog_post_ok h post kw dir d :
  refuses h dir = false ->
  refuses h (html_path h kw dir) = false ->
  refuses h (json_path h kw dir) = false ->
  save_blog_post h post kw dir d
  = (Returned (html_path h kw dir),
     (json_path h kw dir, dumps h false (post_dict post))
       :: (html_path h kw dir, content post) :: d).
Proof.
  intros Hd Hh Hj. unfold save_blog_post, io_bind, makedirs, write_text, io_ret.
  fold (html_path h kw dir). fold (json_path h kw dir).
  now rewrite Hd, Hh, Hj.
Qed.

(** X17: when the system refuses none of the directory and the two
    files, [save_blog_post] returns the path of the HTML file, directory,
    slash, keyword part, underscore, time stamp and .html; read back,
    that file is the content of the post and the JSON file, a different
    file, the text of its dictionary; no other file is changed. *)
Theorem save_blog_post_round_trip h post kw dir d :
  refuses h dir = false ->
  refuses h (html_path h kw dir) = false ->
  refuses h (json_path h kw dir) = false ->
  let d' := snd (save_blog_post h post kw dir d) in
  fst (save_blog_post h post kw dir d) = Returned (html_path h kw dir)
  /\ read (html_path h kw dir) d' = Some (content post)
  /\ read (json_path h kw dir) d' = Some (dumps h false (post_dict post))
  /\ forall path,
       path <> html_path h kw dir -> path <> json_path h kw dir ->
       read path d' = read path d.
Proof.
  intros Hd Hh Hj d'. subst d'. rewrite (save_blog_post_ok h post kw dir d Hd Hh Hj).
  cbn [fst snd]. split; [reflexivity|]. split; [|split].
  - rewrite read_other by apply paths_differ. apply read_written.
  - apply read_written.
  - intros path H1 H2. rewrite !read_other by congruence. reflexivity.
Qed.

(** X18: when the system refuses the directory or the HTML file,
    [save_blog_post] raises and the disk is as it was; when it refuses
    the JSON file only, [save_blog_post] raises too, and the HTML file
    stays written. *)
Theorem save_blog_post_refused h post kw dir d :
  (refuses h dir = true ->
   save_blog_post h post kw dir d = (Raised (os_error h dir), d))
  /\ (refuses h dir = false -> refuses h (html_path h kw dir) = true ->
      save_blog_post h post kw dir d = (Raised (os_error h (html_path h kw dir)), d))
  /\ (refuses h dir = false -> refuses h (html_path h kw dir) = false ->
      refuses h (json_path h kw dir) = true ->
      fst (save_blog_post h post kw dir d) = Raised (os_error h (json_path h kw dir))
      /\ read (html_path h kw dir) (snd (save_blog_post h post kw dir d))
         = Some (content post)).
Proof.
  unfold save_blog_post, io_bind, makedirs, write_text, io_ret.
  fold (html_path h kw dir). fold (json_path h kw dir).
  repeat split; intros;
    repeat match goal with H : refuses _ _ = _ |- _ => rewrite H; clear H end;
    try reflexivity.
  cbn [snd]. apply read_written.
Qed.

(** X19: two saves in the same second, for keywords that differ only by
    spaces, slashes and underscores, go to the same files: after the
    second save the file read back is the content of the second post. *)
Theorem save_blog_post_overwrites h post1 post2 kw1 kw2 dir d :
  map underscored kw1 = map underscored kw2 ->
  refuses h dir = false ->
  refuses h (html_path h kw1 dir) = false ->
  refuses h (json_path h kw1 dir) = false ->
  let d1 := snd (save_blog_post h post1 kw1 dir d) in
  let d2 := snd (save_blog_post h post2 kw2 dir d1) in
  fst (save_blog_post h post1 kw1 dir d) = fst (save_blog_post h post2 kw2 dir d1)
  /\ read (html_path h kw1 dir) d1 = Some (content post1)
  /\ read (html_path h kw1 dir) d2 = Some (content post2).
Proof.
  intros Hk Hd Hh Hj d1 d2.
  assert (Es : safe_keyword kw1 = safe_keyword kw2).
  { unfold safe_keyword. change (lit "/") with ["/"%char]. change (lit "_") with ["_"%char].
    rewrite !replace_char_map, !map_map.
    transitivity (map underscored kw1); [|rewrite Hk];
      apply map_ext; intros x; unfold underscored;
      destruct (Ascii.eqb_spec x SP) as [E|E]; try rewrite E; reflexivity. }
  assert (Ep : html_path h kw2 dir = html_path h kw1 dir)
    by (unfold html_path; now rewrite Es).
  assert (Eq : json_path h kw2 dir = json_path h kw1 dir)
    by (unfold json_path; now rewrite Es).
  subst d2 d1.
  rewrite (save_blog_post_ok h post1 kw1 dir d Hd Hh Hj). cbn [fst snd].
  rewrite (save_blog_post_ok h post2 kw2 dir _ Hd) by (now rewrite ?Ep, ?Eq).
  cbn [fst snd]. rewrite Ep, Eq. split; [reflexivity|]. split.
  - rewrite read_other by apply paths_differ. apply read_written.
  - rewrite read_other by apply paths_differ. apply read_written.
Qed.

Lemma save_blog_post_round_trip_witness :
  read (lit "generated_posts/desk_lamp_20261104_090000.html")
    (snd (save_blog_post (sample_host (fun _ => false)) sample_post (lit "desk lamp")
            (lit "generated_posts") []))
  = Some (content sample_post).
Proof.
  apply (save_blog_post_round_trip (sample_host (fun _ => false)) sample_post
           (lit "desk lamp") (lit "generated_posts") []); reflexivity.
Defined.

Lemma save_blog_post_refused_witness :
  read (lit "generated_posts/desk_lamp_20261104_090000.html")
    (snd (save_blog_post (sample_host (contains (lit ".json"))) sample_post
            (lit "desk lamp") (lit "generated_posts") []))
  = Some (content sample_post).
Proof.
  apply (proj2 (proj2 (save_blog_post_refused (sample_host (contains (lit ".json")))
                         sample_post (lit "desk lamp") (lit "generated_posts") [])));
    reflexivity.
Defined.

Lemma save_blog_post_overwrites_witness :
  read (lit "generated_posts/desk_lamp_20261104_090000.html")
    (snd (save_blog_post (sample_host (fun _ => false)) sample_post (lit "desk/lamp")
            (lit "generated_posts")
            (snd (save_blog_post (sample_host (fun _ => false))
                    (generate_fallback_content (lit "November 2026") (lit "x") empty_seo)
                    (lit "desk lamp") (lit "generated_posts") []))))
  = Some (content sample_post).
Proof.
  apply (save_blog_post_overwrites (sample_host (fun _ => false))
           (generate_fallback_content (lit "November 2026") (lit "x") empty_seo)
           sample_post (lit "desk lamp") (lit "desk/lamp") (lit "generated_posts") []);
    reflexivity.
Defined.

End StorageFacts.

(** ** The handlers *)

Module AppFacts.
Import PyStr AiGenerator SeoFetcher Storage App Notions ExtraNotions StorageFacts.

Lemma fetch_seo_data_run env kw w table :
  mock_database env = Returned table ->
  fetch_seo_data env kw w
  = (Returned (fst (get_seo_data table kw (w_rng w))),
     {| w_rng := snd (get_seo_data table kw (w_rng w)); w_disk := w_disk w |}).
Proof.
  intros H. unfold fetch_seo_data, act_bind, raising, drawing. rewrite H.
  destruct (get_seo_data table kw (w_rng w)). reflexivity.
Qed.

Lemma fetch_seo_data_raised env kw w e :
  mock_database env = Raised e -> fetch_seo_data env kw w = (Raised e, w).
Proof.
  intros H. unfold fetch_seo_data, act_bind, raising. now rewrite H.
Qed.

(** X20: [generate] answers 400, with the message that the keyword
    parameter is required, exactly when the request has no keyword or an
    empty one, and then nothing is drawn and nothing is written; in every
    other case it answers 200 or 500; it never raises. *)
Theorem generate_status env args w :
  exists body status,
    fst (generate env args w) = Returned (body, status)
    /\ (status = 400 \/ status = 200 \/ status = 500)%Z
    /\ ((args_get args (lit "keyword") = None \/ args_get args (lit "keyword") = Some [])
        <-> status = 400%Z)
    /\ (status = 400%Z ->
        body = error_body (lit "keyword parameter is required")
        /\ snd (generate env args w) = w).
Proof.
  unfold generate.
  destruct (args_get args (lit "keyword")) as [[|c k]|] eqn:Ek.
  - exists (error_body (lit "keyword parameter is required")), 400%Z.
    cbn [act_ret fst snd]. repeat split; auto.
  - set (body := act_bind _ _).
    assert (H : exists b s, fst (act_try body (fun e => act_ret (error_body e, 500%Z)) w)
                            = Returned (b, s) /\ (s = 200 \/ s = 500)%Z).
    { unfold act_try. destruct (body w) as [[[b s]|e] w'] eqn:Eb.
      - exists b, s. split; [reflexivity|]. left.
        subst body. unfold act_bind in Eb.
        destruct (fetch_seo_data env (c :: k) w) as [[seo|e0] w0]; [|discriminate].
        destruct (raising (generate_blog_post (ai env) (c :: k) (as_dict seo)) w0)
          as [[post|e1] w1]; [|discriminate].
        destruct (str_eqb (lower (args_get_default args (lit "save") (lit "false")))
                    (lit "true")).
        + unfold act_bind in Eb.
          destruct (on_disk (save_blog_post (machine env) post (c :: k)
                               (lit "generated_posts")) w1) as [[path|e2] w2];
            [|discriminate].
          unfold act_ret in Eb. injection Eb as _ Hs _. now symmetry.
        + unfold act_bind, act_ret in Eb. injection Eb as _ Hs _. now symmetry.
      - exists (error_body e), 500%Z. split; [reflexivity | now right]. }
    destruct H as (b & s & E & Hs). exists b, s. split; [exact E|].
    split; [tauto|]. split.
    + split; [intros [H|H]; discriminate | lia].
    + lia.
  - exists (error_body (lit "keyword parameter is required")), 400%Z.
    cbn [act_ret fst snd]. repeat split; auto.
Qed.

Lemma fetch_seo_data_disk env kw w :
  w_disk (snd (fetch_seo_data env kw w)) = w_disk w.
Proof.
  destruct (mock_database env) as [table|e] eqn:E.
  - now rewrite (fetch_seo_data_run env kw w table E).
  - now rewrite (fetch_seo_data_raised env kw w e E).
Qed.

(** The run of [generate] for a keyword, up to the saving. *)
Lemma generate_run env args c k w table :
  args_get args (lit "keyword") = Some (c :: k) ->
  mock_database env = Returned table ->
  exists post,
    generate_blog_post (ai env) (c :: k)
      (as_dict (fst (get_seo_data table (c :: k) (w_rng w)))) = Returned post
    /\ generate env args w
       = let seo := fst (get_seo_data table (c :: k) (w_rng w)) in
         let w1 := {| w_rng := snd (get_seo_data table (c :: k) (w_rng w));
                      w_disk := w_disk w |} in
         let answer saved w' :=
           (Returned
              (JDict
                 [ (lit "keyword", JStr (c :: k));
                   (lit "seo_data", MockDatabase.seo_data_dict seo);
                   (lit "blog_post", post_dict post);
                   (lit "generated_at", JStr (isoformat (machine env)));
                   (lit "saved_file", json_of_option saved) ],
               200%Z), w') in
         if asks_save args
         then match save_blog_post (machine env) post (c :: k) (lit "generated_posts")
                      (w_disk w) with
              | (Returned path, d) =>
                  answer (Some path) {| w_rng := w_rng w1; w_disk := d |}
              | (Raised e, d) =>
                  (Returned (error_body e, 500%Z), {| w_rng := w_rng w1; w_disk := d |})
              end
         else answer None w1.
Proof.
  intros Ek Et.
  destruct (FallbackFacts.generate_blog_post_returns (ai env) (c :: k)
              (as_dict (fst (get_seo_data table (c :: k) (w_rng w))))) as [post Ep].
  exists post. split; [exact Ep|].
  unfold generate. rewrite Ek. fold (asks_save args).
  unfold act_try, act_bind at 1. rewrite (fetch_seo_data_run env (c :: k) w table Et).
  unfold act_bind at 1, raising at 1. rewrite Ep. cbv zeta.
  destruct (asks_save args).
  - unfold act_bind, on_disk, act_ret. cbn [w_disk w_rng].
    destruct (save_blog_post (machine env) post (c :: k) (lit "generated_posts") (w_disk w))
      as [[path|e] d]; reflexivity.
  - reflexivity.
Qed.

(** X21: a request saves only when its parameter [save], in lower case,
    is the word true: for any other value, and without the parameter,
    [generate] leaves the disk as it was, whatever it answers. *)
Theorem generate_without_save env args w :
  asks_save args = false ->
  w_disk (snd (generate env args w)) = w_disk w.
Proof.
  intros Hs.
  destruct (args_get args (lit "keyword")) as [[|c k]|] eqn:Ek;
    try (unfold generate; rewrite Ek; reflexivity).
  destruct (mock_database env) as [table|e] eqn:Et.
  - destruct (generate_run env args c k w table Ek Et) as (post & _ & ->).
    cbv zeta. rewrite Hs. reflexivity.
  - unfold generate. rewrite Ek. unfold act_try, act_bind at 1.
    rewrite (fetch_seo_data_raised env (c :: k) w e Et). reflexivity.
Qed.

Lemma generate_without_save_witness :
  w_disk
    (snd (generate (sample_env (Returned None) (fun _ => false) None)
            [(lit "keyword", lit "desk lamp"); (lit "save", lit "yes")] sample_world))
  = [].
Proof.
  apply (generate_without_save (sample_env (Returned None) (fun _ => false) None)
           [(lit "keyword", lit "desk lamp"); (lit "save", lit "yes")] sample_world).
  reflexivity.
Defined.

(** X22: for a keyword that is not empty, a parameter [save] that reads
    true, a table that can be read and a system that refuses none of the
    directory and the two files, [generate] answers 200; the answer names
    the HTML file saved under generated_posts, and that file, read back,
    is the content of the post of the answer. *)
Theorem generate_saves env args c k table w :
  args_get args (lit "keyword") = Some (c :: k) ->
  asks_save args = true ->
  mock_database env = Returned table ->
  refuses (machine env) (lit "generated_posts") = false ->
  refuses (machine env) (html_path (machine env) (c :: k) (lit "generated_posts")) = false ->
  refuses (machine env) (json_path (machine env) (c :: k) (lit "generated_posts")) = false ->
  exists seo post,
    fst (generate env args w)
    = Returned
        (JDict
           [ (lit "keyword", JStr (c :: k));
             (lit "seo_data", MockDatabase.seo_data_dict seo);
             (lit "blog_post", post_dict post);
             (lit "generated_at", JStr (isoformat (machine env)));
             (lit "saved_file",
              JStr (html_path (machine env) (c :: k) (lit "generated_posts"))) ],
         200%Z)
    /\ read (html_path (machine env) (c :: k) (lit "generated_posts"))
         (w_disk (snd (generate env args w)))
       = Some (content post).
Proof.
  intros Ek Hs Et Hd Hh Hj.
  destruct (generate_run env args c k w table Ek Et) as (post & _ & ->).
  cbv zeta. rewrite Hs.
  rewrite (save_blog_post_ok (machine env) post (c :: k) (lit "generated_posts")
             (w_disk w) Hd Hh Hj).
  exists (fst (get_seo_data table (c :: k) (w_rng w))), post. cbn [fst snd w_disk].
  split; [reflexivity|].
  rewrite read_other by apply paths_differ. apply read_written.
Qed.

Lemma generate_saves_witness :
  exists seo post,
    fst (generate (sample_env (Returned None) (fun _ => false) None)
           [(lit "keyword", lit "desk lamp"); (lit "save", lit "TRUE")] sample_world)
    = Returned
        (JDict
           [ (lit "keyword", JStr (lit "desk lamp"));
             (lit "seo_data", MockDatabase.seo_data_dict seo);
             (lit "blog_post", post_dict post);
             (lit "generated_at", JStr (lit "2026-11-04T09:00:00"));
             (lit "saved_file",
              JStr (html_path (sample_host (fun _ => false)) (lit "desk lamp")
                      (lit "generated_posts"))) ],
         200%Z)
    /\ read (html_path (sample_host (fun _ => false)) (lit "desk lamp")
               (lit "generated_posts"))
         (w_disk
            (snd (generate (sample_env (Returned None) (fun _ => false) None)
                    [(lit "keyword", lit "desk lamp"); (lit "save", lit "TRUE")]
                    sample_world)))
       = Some (content post).
Proof.
  exact (generate_saves (sample_env (Returned None) (fun _ => false) None)
           [(lit "keyword", lit "desk lamp"); (lit "save", lit "TRUE")]
           "d"%char (lit "esk lamp") None sample_world
           eq_refl eq_refl eq_refl eq_refl eq_refl eq_refl).
Defined.

(** X23: for a keyword that is not empty, when the table cannot be read
    [generate] answers 500 with the message of the exception and leaves
    the world as it was; when the post is to be saved and the system
    refuses the directory, [generate] answers 500 with the message of the
    system and leaves the disk as it was. *)
Theorem generate_errors env args c k w :
  args_get args (lit "keyword") = Some (c :: k) ->
  (forall e,
     mock_database env = Raised e ->
     generate env args w = (Returned (error_body e, 500%Z), w))
  /\ (forall table,
        mock_database env = Returned table ->
        asks_save args = true ->
        refuses (machine env) (lit "generated_posts") = true ->
        fst (generate env args w)
        = Returned (error_body (os_error (machine env) (lit "generated_posts")), 500%Z)
        /\ w_disk (snd (generate env args w)) = w_disk w).
Proof.
  intros Ek. split.
  - intros e Et. unfold generate. rewrite Ek. unfold act_try, act_bind at 1.
    rewrite (fetch_seo_data_raised env (c :: k) w e Et). reflexivity.
  - intros table Et Hs Hd.
    destruct (generate_run env args c k w table Ek Et) as (post & _ & ->).
    cbv zeta. rewrite Hs.
    unfold save_blog_post, io_bind, makedirs. rewrite Hd. split; reflexivity.
Qed.

Lemma generate_errors_witness :
  generate (sample_env (Raised (lit "Expecting value")) (fun _ => false) None)
    [(lit "keyword", lit "desk lamp")] sample_world
  = (Returned (error_body (lit "Expecting value"), 500%Z), sample_world).
Proof.
  apply (proj1 (generate_errors
                  (sample_env (Raised (lit "Expecting value")) (fun _ => false) None)
                  [(lit "keyword", lit "desk lamp")] "d"%char (lit "esk lamp")
                  sample_world eq_refl)).
  reflexivity.
Defined.


(** The run of [generate_daily_post] when the table can be read. *)
Lemma generate_daily_post_run env w table :
  mock_database env = Returned table ->
  exists post,
    generate_blog_post (ai env) (daily_keyword env)
      (as_dict (fst (get_seo_data table (daily_keyword env) (w_rng w)))) = Returned post
    /\ generate_daily_post env w
       = let seo := fst (get_seo_data table (daily_keyword env) (w_rng w)) in
         let g := snd (get_seo_data table (daily_keyword env) (w_rng w)) in
         let json_file :=
           (daily_stem env ++ lit ".json",
            dumps (machine env) false (daily_data env seo post)) in
         let html_file := (daily_stem env ++ lit ".html", content post) in
         (Returned tt,
          {| w_rng := g;
             w_disk :=
               if refuses (machine env) (lit "daily_posts") then w_disk w
               else if refuses (machine env) (daily_stem env ++ lit ".json") then w_disk w
               else if refuses (machine env) (daily_stem env ++ lit ".html")
               then json_file :: w_disk w
               else html_file :: json_file :: w_disk w |}).
Proof.
  intros Et.
  destruct (FallbackFacts.generate_blog_post_returns (ai env) (daily_keyword env)
              (as_dict (fst (get_seo_data table (daily_keyword env) (w_rng w)))))
    as [post Ep].
  exists post. split; [exact Ep|].
  unfold generate_daily_post. fold (daily_keyword env). fold (daily_stem env).
  unfold act_try, act_bind at 1.
  rewrite (fetch_seo_data_run env (daily_keyword env) w table Et).
  unfold act_bind at 1, raising at 1. rewrite Ep. cbv zeta.
  fold (daily_data env (fst (get_seo_data table (daily_keyword env) (w_rng w))) post).
  unfold act_bind, on_disk, makedirs, write_text, act_ret. cbn [w_disk w_rng].
  destruct (refuses (machine env) (lit "daily_posts")); [reflexivity|].
  cbn [w_disk w_rng].
  destruct (refuses (machine env) (daily_stem env ++ lit ".json")); [reflexivity|].
  cbn [w_disk w_rng].
  destruct (refuses (machine env) (daily_stem env ++ lit ".html")); reflexivity.
Qed.

Lemma generate_daily_post_returns env w :
  fst (generate_daily_post env w) = Returned tt.
Proof.
  unfold generate_daily_post, act_try.
  match goal with |- context [match ?b with _ => _ end] => destruct b as [[[]|e] w'] end;
    reflexivity.
Qed.

Lemma trigger_daily_generation_run env w :
  trigger_daily_generation env w
  = (Returned (triggered, 200%Z), snd (generate_daily_post env w)).
Proof.
  unfold trigger_daily_generation, act_try, act_bind.
  pose proof (generate_daily_post_returns env w) as H.
  destruct (generate_daily_post env w) as [[[]|e] w']; [reflexivity|discriminate].
Qed.

(** X24: [generate_daily_post] never raises, so [trigger_daily_generation]
    always answers 200 with the message of success and never 500: also
    when the table cannot be read, where the world is left as it was, and
    when the system refuses the directory or the JSON file, where the
    disk is left as it was and no post is saved. *)
Theorem trigger_daily_generation_answer env w :
  fst (trigger_daily_generation env w) = Returned (triggered, 200%Z)
  /\ (forall e, mock_database env = Raised e -> snd (trigger_daily_generation env w) = w)
  /\ (refuses (machine env) (lit "daily_posts") = true
      \/ refuses (machine env) (daily_stem env ++ lit ".json") = true ->
      w_disk (snd (trigger_daily_generation env w)) = w_disk w).
Proof.
  rewrite trigger_daily_generation_run. cbn [fst snd]. split; [reflexivity|]. split.
  - intros e Et. unfold generate_daily_post. fold (daily_keyword env).
    unfold act_try, act_bind at 1.
    rewrite (fetch_seo_data_raised env (daily_keyword env) w e Et). reflexivity.
  - intros Hr. destruct (mock_database env) as [table|e] eqn:Et.
    + destruct (generate_daily_post_run env w table Et) as (post & _ & ->).
      cbv zeta. cbn [snd w_disk].
      destruct (refuses (machine env) (lit "daily_posts")); [reflexivity|].
      destruct Hr as [Hr|Hr]; [discriminate|]. now rewrite Hr.
    + unfold generate_daily_post. fold (daily_keyword env).
      unfold act_try, act_bind at 1.
      rewrite (fetch_seo_data_raised env (daily_keyword env) w e Et). reflexivity.
Qed.

Lemma trigger_daily_generation_answer_witness :
  w_disk
    (snd (trigger_daily_generation
            (sample_env (Returned None)
               (fun path => SeoFetcher.str_eqb path (lit "daily_posts")) None)
            sample_world))
  = [].
Proof.
  apply (proj2 (proj2 (trigger_daily_generation_answer
                         (sample_env (Returned None)
                            (fun path => SeoFetcher.str_eqb path (lit "daily_posts")) None)
                         sample_world))).
  left. reflexivity.
Defined.

(** X25: when the table can be read and the system refuses none of the
    directory and the two files, [generate_daily_post] adds two files to
    the disk, both named daily_posts/daily_post_, the keyword with
    underscores, an underscore and the time: the JSON file first, holding
    the keyword, the SEO record, the post and the time, then the HTML
    file, which is the content of the post generated for the keyword of
    the variable DAILY_KEYWORD, or for wireless earbuds when the variable
    is not set. *)
Theorem generate_daily_post_files env table w :
  mock_database env = Returned table ->
  refuses (machine env) (lit "daily_posts") = false ->
  refuses (machine env) (daily_stem env ++ lit ".json") = false ->
  refuses (machine env) (daily_stem env ++ lit ".html") = false ->
  exists post,
    generate_blog_post (ai env) (daily_keyword env)
      (as_dict (fst (get_seo_data table (daily_keyword env) (w_rng w)))) = Returned post
    /\ w_disk (snd (generate_daily_post env w))
       = (daily_stem env ++ lit ".html", content post)
         :: (daily_stem env ++ lit ".json",
             dumps (machine env) false
               (daily_data env (fst (get_seo_data table (daily_keyword env) (w_rng w)))
                  post))
         :: w_disk w.
Proof.
  intros Et Hd Hj Hh.
  destruct (generate_daily_post_run env w table Et) as (post & Ep & ->).
  exists post. split; [exact Ep|].
  cbv zeta. cbn [snd w_disk]. now rewrite Hd, Hj, Hh.
Qed.

Lemma generate_daily_post_files_witness :
  exists post,
    generate_blog_post no_credential (lit "wireless earbuds")
      (as_dict (fst (get_seo_data None (lit "wireless earbuds") (constant_tape 0.5))))
    = Returned post
    /\ w_disk
         (snd (generate_daily_post (sample_env (Returned None) (fun _ => false) None)
                 sample_world))
       = [ (lit "daily_posts/daily_post_wireless_earbuds_20261104_090000.html",
            content post);
           (lit "daily_posts/daily_post_wireless_earbuds_20261104_090000.json",
            lit "{}") ].
Proof.
  exact (generate_daily_post_files (sample_env (Returned None) (fun _ => false) None)
           None sample_world eq_refl eq_refl eq_refl eq_refl).
Defined.

End AppFacts.

(** ** The table of [create_mock_database] *)

Module MockFacts.
Import PyStr SeoFetcher MockDatabase Notions ExtraNotions.

Lemma lookup_dict_set key key' (v : seo_data) d :
  lookup key' (dict_set key v d)
  = if str_eqb key key' then Some v else lookup key' d.
Proof.
  induction d as [|[k x] rest IH]; cbn [dict_set lookup]; [reflexivity|].
  destruct (str_eqb k key) eqn:E.
  - apply TableFacts.str_eqb_spec in E. subst k. cbn [lookup].
    destruct (str_eqb key key'); reflexivity.
  - cbn [lookup]. destruct (str_eqb k key') eqn:E2; [|exact IH].
    apply TableFacts.str_eqb_spec in E2. subst k.
    destruct (str_eqb key key') eqn:E3; [|reflexivity].
    apply TableFacts.str_eqb_spec in E3. subst key'.
    rewrite (proj2 (TableFacts.str_eqb_spec key key) eq_refl) in E. discriminate.
Qed.

Lemma lookup_keys key (d : list (str * seo_data)) :
  In key (map fst d) <-> exists v, lookup key d = Some v.
Proof.
  induction d as [|[k x] rest IH]; cbn [map fst lookup In].
  - split; [intros []|intros [v E]; discriminate].
  - destruct (str_eqb k key) eqn:E.
    + apply TableFacts.str_eqb_spec in E. split; [intros _; now exists x|now left].
    + split.
      * intros [Hk|Hin]; [|now apply IH].
        apply TableFacts.str_eqb_spec in Hk. congruence.
      * intros Hv. right. now apply IH.
Qed.

Lemma dict_set_keys key (v : seo_data) d k :
  In k (map fst (dict_set key v d)) <-> k = key \/ In k (map fst d).
Proof.
  rewrite !lookup_keys, lookup_dict_set.
  destruct (str_eqb key k) eqn:E.
  - apply TableFacts.str_eqb_spec in E. split; [now left|intros _; now exists v].
  - split; [now right|]. intros [Hk|H]; [|exact H].
    subst k. rewrite (proj2 (TableFacts.str_eqb_spec key key) eq_refl) in E.
    discriminate.
Qed.

Lemma dict_set_nodup key (v : seo_data) d :
  NoDup (map fst d) -> NoDup (map fst (dict_set key v d)).
Proof.
  induction d as [|[k x] rest IH]; cbn [dict_set map fst]; intros Hnd.
  - repeat constructor. intros [].
  - inversion Hnd as [|? ? Hk Hrest]; subst.
    destruct (str_eqb k key) eqn:E; cbn [map fst]; [exact Hnd|].
    constructor; [|now apply IH].
    intros Hin. apply dict_set_keys in Hin. destruct Hin as [->|Hin]; [|now apply Hk].
    rewrite (proj2 (TableFacts.str_eqb_spec key key) eq_refl) in E. discriminate.
Qed.

Lemma generated_keyword kw g : keyword (fst (generate_mock_seo_data kw g)) = kw.
Proof.
  pose proof (SeoStageFacts.generate_mock_seo_data_lists kw g) as H.
  destruct (fst (band (List.length (split kw)) g)) as [[v d] c].
  apply H.
Qed.

Lemma dict_set_well_keyed kw data d :
  keyword data = kw -> well_keyed d -> well_keyed (dict_set (lower kw) data d).
Proof.
  intros Hk Hw key x. rewrite lookup_dict_set.
  destruct (str_eqb (lower kw) key) eqn:E; [|apply Hw].
  apply TableFacts.str_eqb_spec in E. intros H. injection H as <-. now rewrite Hk.
Qed.

(** What the loop keeps: the keys stay distinct, every record stays
    under its keyword in lower case, and the keys are those of the start
    and the keywords in lower case. *)
Lemma fill_keeps kws :
  forall db g,
    well_keyed db -> NoDup (map fst db) ->
    well_keyed (fst (fill kws db g))
    /\ NoDup (map fst (fst (fill kws db g)))
    /\ (forall k, In k (map fst (fst (fill kws db g)))
                  <-> In k (map fst db) \/ In k (map lower kws)).
Proof.
  induction kws as [|kw rest IH]; intros db g Hw Hnd.
  - cbn [fill ret fst map In]. repeat split; tauto.
  - cbn [fill]. unfold bind.
    pose proof (generated_keyword kw g) as Hk.
    destruct (generate_mock_seo_data kw g) as [data g']. cbn [fst] in Hk.
    destruct (IH (dict_set (lower kw) data db) g'
                (dict_set_well_keyed kw data db Hk Hw)
                (dict_set_nodup (lower kw) data db Hnd)) as (H1 & H2 & H3).
    repeat split; [exact H1|exact H2| |].
    + intros Hin. apply H3 in Hin. cbn [map In].
      destruct Hin as [Hin|Hin]; [|tauto].
      apply dict_set_keys in Hin. destruct Hin as [->|Hin]; tauto.
    + intros Hin. apply H3. cbn [map In] in Hin.
      rewrite dict_set_keys. destruct Hin as [Hin|[<-|Hin]]; tauto.
Qed.

(** X26: the table that the loop of [create_mock_database] builds from a
    list of keywords has distinct keys, and [get_seo_data] with this
    table returns, for a keyword that is one of the list up to letter
    case, a stored record of that keyword with no random draw, and for
    any other keyword a freshly generated record. *)
Theorem fill_serves kws g kw g' :
  NoDup (map fst (fst (fill kws [] g)))
  /\ (In (lower kw) (map lower kws) ->
      exists d,
        get_seo_data (Some (fst (fill kws [] g))) kw g' = (d, g')
        /\ lower (keyword d) = lower kw)
  /\ (~ In (lower kw) (map lower kws) ->
      get_seo_data (Some (fst (fill kws [] g))) kw g' = generate_mock_seo_data kw g').
Proof.
  assert (Hw : well_keyed []) by (intros key d E; discriminate).
  destruct (fill_keeps kws [] g Hw (NoDup_nil _)) as (H1 & H2 & H3).
  split; [exact H2|]. split.
  - intros Hin.
    assert (Hk : In (lower kw) (map fst (fst (fill kws [] g)))) by (apply H3; now right).
    apply lookup_keys in Hk. destruct Hk as [d E]. exists d.
    split; [|now apply H1]. unfold get_seo_data. now rewrite E.
  - intros Hno. unfold get_seo_data.
    destruct (lookup (lower kw) (fst (fill kws [] g))) as [d|] eqn:E; [|reflexivity].
    exfalso. apply Hno.
    assert (Hk : In (lower kw) (map fst (fst (fill kws [] g))))
      by (apply lookup_keys; now exists d).
    apply H3 in Hk. destruct Hk as [[]|Hk]. exact Hk.
Qed.

Lemma fill_serves_witness :
  exists d,
    get_seo_data (Some (fst (fill test_keywords [] (constant_tape 0.5))))
      (lit "Yoga Mat") (constant_tape 0)
    = (d, constant_tape 0)
    /\ lower (keyword d) = lit "yoga mat".
Proof.
  apply (proj1 (proj2 (fill_serves test_keywords (constant_tape 0.5) (lit "Yoga Mat")
                         (constant_tape 0)))).
  vm_compute. tauto.
Defined.

End MockFacts.
